(** * Hysteria2 core of sing-quic: authentication, congestion-control
    selection and first-frame state machines.

    The development embeds [hysteria2/service.go] (server side) and the
    client of the same package ([Client], [clientQUICConnection],
    [clientConn]).  Calls to collaborators (the QUIC connection, the HTTP
    response writer, the masquerade handler, the stream) are recorded as
    events, in program order; what a collaborator answers (a dial result,
    an HTTP response, the result of a stream write) is an argument of the
    embedded function. *)

From Stdlib Require Import ZArith NArith String List Bool Lia.
From stdpp Require Import base option list gmap strings.
Import ListNotations.

Local Open Scope Z_scope.

(** ** Errors *)

(** The arguments of [E.New(...)], which concatenates their textual form. *)
Inductive MsgPart : Type :=
| MStr (s : string)
| MInt (z : Z).

Inductive Error : Type :=
| os_ErrInvalid
| os_ErrClosed
| E_New (message : list MsgPart)
| ExternalError (tag : string).   (* an error value produced by a collaborator *)

(** ** Package [protocol] *)

Module protocol.

(** Modelled from the spec: the constants of [internal/protocol], which
    is not among the sources (host [hysteria], path [/auth], status 233). *)
Definition URLHost : string := "hysteria".
Definition URLPath : string := "/auth".
Definition StatusAuthOK : Z := 233.

(** Modelled from the spec: the [AuthRequest] struct of
    [internal/protocol], with the fields the sources set and read. *)
Record AuthRequest : Type := mkAuthRequest {
  Auth : string;
  Rx : N
}.

(** Modelled from the spec: the [AuthResponse] struct of
    [internal/protocol], with the fields the sources set and read
    ([RespRx] is its field [Rx]). *)
Record AuthResponse : Type := mkAuthResponse {
  UDPEnabled : bool;
  RespRx : N;
  RxAuto : bool
}.

End protocol.

(** [http.MethodPost] *)
Definition MethodPost : string := "POST".

(** ** What the development takes from outside the sources *)

(** Functions and constants of [internal/protocol] and of the libraries
    the package is built on, none of which is among the sources.  The code
    is embedded over any implementation of them. *)
Class Externals : Type := {
  Header : Type;                                              (* http.Header *)
  AuthRequestFromHeader : Header -> protocol.AuthRequest;     (* protocol *)
  AuthResponseFromHeader : Header -> protocol.AuthResponse;   (* protocol *)
  FrameTypeTCPRequest : N;                                    (* protocol *)
  Socksaddr : Type;                                           (* M.Socksaddr *)
  ParseSocksaddr : string -> Socksaddr;                       (* M.ParseSocksaddr *)
  SocksaddrString : Socksaddr -> string;                      (* Socksaddr.String *)
  WrapQUIC : option Error -> option Error                     (* baderror.WrapQUIC; nil is None *)
}.

(** ** Congestion controllers *)

(** What a QUIC connection can be given as congestion control:
    [hyCC.NewBrutalSender(bps, debug, logger)], or a controller chosen by
    name with an initial window. *)
Inductive Controller : Type :=
| NewBrutalSender (bps : N) (debug : bool)
| NamedController (name : string) (cwnd : Z).

(** Modelled from the spec: [SetCongestionController(conn, name, cwnd)] is
    defined in a file of the package that is not among the sources; called
    with ["bbr"] it installs BBR with initial window [cwnd]. *)
Definition SetCongestionController (name : string) (cwnd : Z) : Controller :=
  NamedController name cwnd.

Definition BBR (cwnd : Z) : Controller := NamedController "bbr" cwnd.

(** ** Streams *)

(** Bytes handed to [Stream.Write]: a buffer built by
    [protocol.WriteTCPResponse(ok, message, payload)] or by
    [protocol.WriteTCPRequest(destination, payload)], or the caller's own
    bytes.  The codec is not among the sources, so a frame is kept as the
    arguments it was built from. *)
Inductive WireData : Type :=
| WriteTCPResponse (ok : bool) (message : string) (payload : list Byte.byte)
| WriteTCPRequest (destination : string) (payload : list Byte.byte)
| RawBytes (p : list Byte.byte).

(** Calls made on a [quic.Stream], directly or through the codec. *)
Inductive StreamCall : Type :=
| ReadTCPRequest
| ReadTCPResponse
| StreamRead (len : nat)
| StreamWrite (data : WireData)
| CancelRead (code : Z)
| StreamClose.

(** What the stream answers during one call of a conn method. *)
Record StreamAnswers : Type := mkStreamAnswers {
  onReadTCPRequest : Error + string;              (* destinationString, err *)
  onReadTCPResponse : Error + (bool * string);    (* status, errorMessage, err *)
  onRead : Z * option Error;                      (* n, err of Stream.Read *)
  onWrite : Z * option Error                      (* n, err of Stream.Write *)
}.

Definition isResponseFrame (c : StreamCall) : bool :=
  match c with
  | StreamWrite (WriteTCPResponse _ _ _) => true
  | _ => false
  end.

(** How many TCP-response frames a sequence of calls writes. *)
Definition responseFrames (calls : list StreamCall) : nat :=
  length (filter (fun c => isResponseFrame c = true) calls).

(** ** The server ([hysteria2/service.go]) *)

Module server.

Record ServiceOptions : Type := mkServiceOptions {
  Context_Done : bool;              (* options.Context.Done() != nil *)
  BrutalDebug : bool;
  SendBPS : N;
  ReceiveBPS : N;
  IgnoreClientBandwidth : bool;
  SalamanderPassword : string;
  UDPDisabled : bool;
  CWND : Z
}.

Record Service (U : Type) : Type := mkService {
  ctx_Done : bool;                  (* s.ctx.Done() != nil *)
  brutalDebug : bool;
  sendBPS : N;
  receiveBPS : N;
  ignoreClientBandwidth : bool;
  salamanderPassword : string;
  userMap : gmap string U;
  udpDisabled : bool;
  cwnd : Z
}.
Arguments mkService {U}.
Arguments ctx_Done {U}.
Arguments brutalDebug {U}.
Arguments sendBPS {U}.
Arguments receiveBPS {U}.
Arguments ignoreClientBandwidth {U}.
Arguments salamanderPassword {U}.
Arguments userMap {U}.
Arguments udpDisabled {U}.
Arguments cwnd {U}.

(** [NewService]: the struct literal has no entry for [cwnd], which keeps
    Go's zero value; the user map starts empty. *)
Definition NewService {U : Type} (options : ServiceOptions) : Service U :=
  {| ctx_Done := Context_Done options;
     brutalDebug := BrutalDebug options;
     sendBPS := SendBPS options;
     receiveBPS := ReceiveBPS options;
     ignoreClientBandwidth := IgnoreClientBandwidth options;
     salamanderPassword := SalamanderPassword options;
     userMap := ∅;
     udpDisabled := UDPDisabled options;
     cwnd := 0 |}.

(** The loop of [UpdateUsers]: [passwordList[i]] is indexed by the
    position in [userList]; [None] is Go's index-out-of-range panic. *)
Fixpoint UpdateUsers_loop {U : Type} (i : nat) (userList : list U)
    (passwordList : list string) (m : gmap string U) : option (gmap string U) :=
  match userList with
  | [] => Some m
  | user :: rest =>
      match passwordList !! i with
      | None => None
      | Some password =>
          UpdateUsers_loop (S i) rest passwordList (<[password := user]> m)
      end
  end.

Definition set_userMap {U : Type} (s : Service U) (m : gmap string U) : Service U :=
  {| ctx_Done := ctx_Done s;
     brutalDebug := brutalDebug s;
     sendBPS := sendBPS s;
     receiveBPS := receiveBPS s;
     ignoreClientBandwidth := ignoreClientBandwidth s;
     salamanderPassword := salamanderPassword s;
     userMap := m;
     udpDisabled := udpDisabled s;
     cwnd := cwnd s |}.

Definition UpdateUsers {U : Type} (s : Service U) (userList : list U)
    (passwordList : list string) : option (Service U) :=
  match UpdateUsers_loop 0 userList passwordList ∅ with
  | Some m => Some (set_userMap s m)
  | None => None
  end.

(** An HTTP request as [ServeHTTP] reads it: [r.Method], [r.Host],
    [r.URL.Path] and [r.Header]. *)
Record Request `{Externals} : Type := mkRequest {
  Method : string;
  Host : string;
  URL_Path : string;
  ReqHeader : Header
}.

(** [serverConn]: the stream itself is the environment. *)
Record serverConn : Type := mkServerConn {
  responseWritten : bool
}.

(** Goroutines started by a server session. *)
Inductive Goroutine : Type :=
| AwaitContextDone      (* select on s.ctx.Done() and s.connDone *)
| LoopMessages          (* s.loopMessages() *)
| StreamHandler.        (* the closure of handleStream0 *)

(** Calls a server session makes on its collaborators while it serves an
    HTTP request or peeks a stream. *)
Inductive Event `{Externals} : Type :=
| MasqueradeServeHTTP (r : Request)
| AuthResponseToHeader (response : protocol.AuthResponse)
| WriteHeader (status : Z)
| QuicSetCongestionControl (c : Controller)
| CallSetCongestionController (name : string) (cwnd : Z)
| Go (g : Goroutine)
| QuicCloseWithError (code : Z) (reason : string).

Record serverSession `{Externals} (U : Type) : Type := mkServerSession {
  service : Service U;          (* the embedded *Service *)
  source : Socksaddr;
  connDone : bool;              (* whether the connDone channel is closed *)
  connErr : option Error;
  authenticated : bool;
  authUser : U
}.
Arguments mkServerSession {_ U}.
Arguments service {_ U}.
Arguments source {_ U}.
Arguments connDone {_ U}.
Arguments connErr {_ U}.
Arguments authenticated {_ U}.
Arguments authUser {_ U}.

(** Calls made by the goroutine that owns a hijacked stream. *)
Inductive HijackCall `{Externals} (U : Type) : Type :=
| OnStream (c : StreamCall)
| HandlerNewConnection (user : U) (conn : serverConn) (src dst : Socksaddr)
| LoggerError (cause : Error).
Arguments OnStream {_ U}.
Arguments HandlerNewConnection {_ U}.
Arguments LoggerError {_ U}.

Section Model.

Context `{Externals} {U : Type} `{Inhabited U}.

(** The session [handleConnection] builds: Go's zero values for the
    fields the literal leaves out. *)
Definition newSession (s : Service U) (remote : Socksaddr) : serverSession U :=
  {| service := s;
     source := remote;
     connDone := false;
     connErr := None;
     authenticated := false;
     authUser := inhabitant |}.

Definition isAuthURL (r : Request) : bool :=
  String.eqb (Method r) MethodPost
  && String.eqb (Host r) protocol.URLHost
  && String.eqb (URL_Path r) protocol.URLPath.

(** The struct both branches of [ServeHTTP] pass to
    [protocol.AuthResponseToHeader]. *)
Definition sessionAuthResponse (s : serverSession U) : protocol.AuthResponse :=
  {| protocol.UDPEnabled := negb (udpDisabled (service s));
     protocol.RespRx := receiveBPS (service s);
     protocol.RxAuto := ignoreClientBandwidth (service s) |}.

Definition setAuthenticated (s : serverSession U) (user : U) : serverSession U :=
  {| service := service s;
     source := source s;
     connDone := connDone s;
     connErr := connErr s;
     authenticated := true;
     authUser := user |}.

Definition ServeHTTP (s : serverSession U) (r : Request)
    : serverSession U * list Event :=
  if isAuthURL r then
    if authenticated s then
      (s, [AuthResponseToHeader (sessionAuthResponse s);
           WriteHeader protocol.StatusAuthOK])
    else
      let request := AuthRequestFromHeader (ReqHeader r) in
      match userMap (service s) !! protocol.Auth request with
      | None => (s, [MasqueradeServeHTTP r])
      | Some user =>
          let s' := setAuthenticated s user in
          let svc := service s' in
          (s',
           (if negb (ignoreClientBandwidth svc) && (0 <? protocol.Rx request)%N then
              let sendBps :=
                if (0 <? sendBPS svc)%N && (sendBPS svc <? protocol.Rx request)%N
                then sendBPS svc
                else protocol.Rx request in
              [QuicSetCongestionControl (NewBrutalSender sendBps (brutalDebug svc))]
            else
              [CallSetCongestionController "bbr" (cwnd svc)])
           ++ [AuthResponseToHeader (sessionAuthResponse s');
               WriteHeader protocol.StatusAuthOK]
           ++ (if ctx_Done svc then [Go AwaitContextDone] else [])
           ++ (if negb (udpDisabled svc) then [Go LoopMessages] else []))
      end
  else
    (s, [MasqueradeServeHTTP r]).

(** [handleStream0]: [err] is the error of the HTTP/3 peek. *)
Definition handleStream0 (s : serverSession U) (frameType : N) (err : option Error)
    : (bool * option Error) * list Event :=
  if negb (authenticated s) || bool_decide (err ≠ None) then
    ((false, None), [])
  else if negb (frameType =? FrameTypeTCPRequest)%N then
    ((false, None), [])
  else
    ((true, None), [Go StreamHandler]).

Definition handleStream (s : serverSession U) (a : StreamAnswers)
    : option Error * list (HijackCall U) :=
  match onReadTCPRequest a with
  | inl _ => (Some (E_New [MStr "read TCP request"]), [OnStream ReadTCPRequest])
  | inr destinationString =>
      (None,
       [OnStream ReadTCPRequest;
        HandlerNewConnection (authUser s) {| responseWritten := false |}
          (source s) (ParseSocksaddr destinationString)])
  end.

(** The body of the goroutine [handleStream0] starts. *)
Definition streamHandler (s : serverSession U) (a : StreamAnswers)
    : list (HijackCall U) :=
  let '(hErr, calls) := handleStream s a in
  calls
  ++ [OnStream (CancelRead 0); OnStream StreamClose]
  ++ match hErr with
     | Some e => [OnStream (CancelRead 0); OnStream StreamClose; LoggerError e]
     | None => []
     end.

(** [closeWithError]: the select on [connDone] makes every call after
    the first return at once (logging is left out). *)
Definition closeWithError (s : serverSession U) (err : Error)
    : serverSession U * list Event :=
  if connDone s then (s, [])
  else
    ({| service := service s;
        source := source s;
        connDone := true;
        connErr := Some err;
        authenticated := authenticated s;
        authUser := authUser s |},
     [QuicCloseWithError 0 ""]).

(** *** [serverConn] *)

Definition markWritten (c : serverConn) : serverConn :=
  {| responseWritten := true |}.

(** [HandshakeFailure(err)]; [message] is [err.Error()]. *)
Definition HandshakeFailure (c : serverConn) (message : string) (a : StreamAnswers)
    : option Error * serverConn * list StreamCall :=
  if responseWritten c then (Some os_ErrClosed, c, [])
  else
    (snd (onWrite a), markWritten c,
     [StreamWrite (WriteTCPResponse false message [])]).

Definition HandshakeSuccess (c : serverConn) (a : StreamAnswers)
    : option Error * serverConn * list StreamCall :=
  if responseWritten c then (None, c, [])
  else
    (snd (onWrite a), markWritten c,
     [StreamWrite (WriteTCPResponse true "" [])]).

Definition serverConn_Read (c : serverConn) (len : nat) (a : StreamAnswers)
    : (Z * option Error) * serverConn * list StreamCall :=
  ((fst (onRead a), WrapQUIC (snd (onRead a))), c, [StreamRead len]).

Definition serverConn_Write (c : serverConn) (p : list Byte.byte) (a : StreamAnswers)
    : (Z * option Error) * serverConn * list StreamCall :=
  if negb (responseWritten c) then
    let c' := markWritten c in
    match snd (onWrite a) with
    | Some err =>
        ((0, WrapQUIC (Some err)), c', [StreamWrite (WriteTCPResponse true "" p)])
    | None =>
        ((Z.of_nat (length p), None), c', [StreamWrite (WriteTCPResponse true "" p)])
    end
  else
    ((fst (onWrite a), WrapQUIC (snd (onWrite a))), c, [StreamWrite (RawBytes p)]).

(** *** Observations on a trace *)

(** The controller a call installs on the QUIC connection, if any. *)
Definition installedBy (e : Event) : option Controller :=
  match e with
  | QuicSetCongestionControl c => Some c
  | CallSetCongestionController name w => Some (SetCongestionController name w)
  | _ => None
  end.

Definition installs (tr : list Event) : list Controller := omap installedBy tr.

(** The auth responses written to the response headers. *)
Definition advertisedBy (e : Event) : option protocol.AuthResponse :=
  match e with
  | AuthResponseToHeader response => Some response
  | _ => None
  end.

Definition advertised (tr : list Event) : list protocol.AuthResponse :=
  omap advertisedBy tr.

Definition masqueradedBy (e : Event) : option Request :=
  match e with MasqueradeServeHTTP r => Some r | _ => None end.

Definition masqueraded (tr : list Event) : list Request := omap masqueradedBy tr.

Definition closedBy (e : Event) : option (Z * string) :=
  match e with QuicCloseWithError code reason => Some (code, reason) | _ => None end.

Definition closes (tr : list Event) : list (Z * string) := omap closedBy tr.

Definition statusBy (e : Event) : option Z :=
  match e with WriteHeader status => Some status | _ => None end.

Definition statuses (tr : list Event) : list Z := omap statusBy tr.

(** The rate the server paces at, as the smaller of the two caps: the
    rate the client asked for and the service's own [sendBPS], where a
    [sendBPS] of 0 is no cap. *)
Definition smallerCap (svc : Service U) (request : protocol.AuthRequest) : N :=
  if (sendBPS svc =? 0)%N then protocol.Rx request
  else N.min (sendBPS svc) (protocol.Rx request).


(** *** A session over time *)

(** Between two requests the embedder may replace the user map
    ([UpdateUsers] on the shared [*Service]). *)
Inductive SessionStep : Type :=
| Serve (r : Request)
| UsersUpdated (userList : list U) (passwordList : list string).

Definition withService (s : serverSession U) (svc : Service U) : serverSession U :=
  {| service := svc;
     source := source s;
     connDone := connDone s;
     connErr := connErr s;
     authenticated := authenticated s;
     authUser := authUser s |}.

Definition sessionStep (s : serverSession U) (st : SessionStep)
    : serverSession U * list Event :=
  match st with
  | Serve r => ServeHTTP s r
  | UsersUpdated userList passwordList =>
      match UpdateUsers (service s) userList passwordList with
      | Some svc => (withService s svc, [])
      | None => (s, [])
      end
  end.

Fixpoint runSession (s : serverSession U) (steps : list SessionStep)
    : serverSession U * list Event :=
  match steps with
  | [] => (s, [])
  | st :: rest =>
      let '(s1, tr1) := sessionStep s st in
      let '(s2, tr2) := runSession s1 rest in
      (s2, tr1 ++ tr2)
  end.

(** Calls on one [serverConn], each with what the stream answers. *)
Inductive ConnCall : Type :=
| CallHandshakeSuccess
| CallHandshakeFailure (message : string)
| CallWrite (p : list Byte.byte)
| CallRead (len : nat).

Definition connStep (c : serverConn) (call : ConnCall * StreamAnswers)
    : serverConn * list StreamCall :=
  match call with
  | (CallHandshakeSuccess, a) =>
      let '(_, c', calls) := HandshakeSuccess c a in (c', calls)
  | (CallHandshakeFailure message, a) =>
      let '(_, c', calls) := HandshakeFailure c message a in (c', calls)
  | (CallWrite p, a) =>
      let '(_, c', calls) := serverConn_Write c p a in (c', calls)
  | (CallRead len, a) =>
      let '(_, c', calls) := serverConn_Read c len a in (c', calls)
  end.

Fixpoint runConn (c : serverConn) (calls : list (ConnCall * StreamAnswers))
    : serverConn * list StreamCall :=
  match calls with
  | [] => (c, [])
  | call :: rest =>
      let '(c1, tr1) := connStep c call in
      let '(c2, tr2) := runConn c1 rest in
      (c2, tr1 ++ tr2)
  end.

End Model.

End server.

(** ** The transport helper ([quic.go], package [qtls]) *)

Module qtls.

(** A handle on a QUIC connection, and one on the dialed UDP socket. *)
Record QuicHandle : Type := mkQuicHandle { quic_id : N }.
Record UdpHandle : Type := mkUdpHandle { udp_id : N }.

(** The [Dial] closure [CreateTransport] gives the HTTP/3 round tripper:
    [early] is what [quic.DialEarly] returns; on success the connection
    is stored through [quicConnPtr] before it is returned. *)
Definition Dial (early : Error + QuicHandle) (quicConnPtr : option QuicHandle)
    : option QuicHandle * (Error + QuicHandle) :=
  match early with
  | inl err => (quicConnPtr, inl err)
  | inr quicConn => (Some quicConn, inr quicConn)
  end.

End qtls.

(** ** The client *)

Module client.

Import qtls.

Record ClientOptions : Type := mkClientOptions {
  BrutalDebug : bool;
  SendBPS : N;
  ReceiveBPS : N;
  SalamanderPassword : string;
  Password : string;
  UDPDisabled : bool;
  CWND : Z
}.

Record udpPacketConn : Type := mkUdpPacketConn {
  pc_quicConn : QuicHandle;
  sessionID : N                 (* uint32 *)
}.

Record clientQUICConnection : Type := mkClientQUICConnection {
  quicConn : QuicHandle;
  quicContextDone : bool;       (* whether quicConn.Context().Done() is closed *)
  rawConn : UdpHandle;
  closeOnce : bool;             (* whether closeOnce has fired *)
  connDone : bool;              (* whether the connDone channel is closed *)
  connErr : option Error;
  conn_udpDisabled : bool;      (* the field udpDisabled of the connection *)
  udpConnMap : gmap N udpPacketConn;
  udpSessionID : N              (* uint32 *)
}.

Record Client : Type := mkClient {
  brutalDebug : bool;
  sendBPS : N;
  receiveBPS : N;
  salamanderPassword : string;
  password : string;
  udpDisabled : bool;
  cwnd : Z;
  conn : option clientQUICConnection
}.

Definition NewClient (options : ClientOptions) : Client :=
  {| brutalDebug := BrutalDebug options;
     sendBPS := SendBPS options;
     receiveBPS := ReceiveBPS options;
     salamanderPassword := SalamanderPassword options;
     password := Password options;
     udpDisabled := UDPDisabled options;
     cwnd := CWND options;
     conn := None |}.

Definition set_conn (c : Client) (k : option clientQUICConnection) : Client :=
  {| brutalDebug := brutalDebug c;
     sendBPS := sendBPS c;
     receiveBPS := receiveBPS c;
     salamanderPassword := salamanderPassword c;
     password := password c;
     udpDisabled := udpDisabled c;
     cwnd := cwnd c;
     conn := k |}.

(** Calls the client makes on its collaborators. *)
Inductive Event : Type :=
| DialContext
| CreateTransport (salamander : bool)
| RoundTripPOST (host path : string) (request : protocol.AuthRequest)
| BodyClose
| QuicCloseWithError (q : QuicHandle) (code : Z) (reason : string)
| UdpClose (u : UdpHandle)
| QuicSetCongestionControl (q : QuicHandle) (c : Controller)
| CallSetCongestionController (q : QuicHandle) (name : string) (cwnd : Z)
| GoLoopMessages (q : QuicHandle).

Record Response `{Externals} : Type := mkResponse {
  StatusCode : Z;
  RespHeader : Header
}.

(** What the network does during one round trip of the HTTP/3 transport:
    the QUIC dial fails, or it succeeds and the exchange fails, or a
    response arrives over the dialed connection. *)
Inductive RoundTripOutcome `{Externals} : Type :=
| QuicDialFailed (err : Error)
| ExchangeFailed (q : QuicHandle) (err : Error)
| Responded (q : QuicHandle) (response : Response).

(** What the network does during one [offerNew]. *)
Record Network `{Externals} : Type := mkNetwork {
  dial : Error + UdpHandle;       (* c.dialer.DialContext *)
  trip : RoundTripOutcome
}.

(** How a call ends: with a value, with an error, or in a Go panic. *)
Inductive Result (A : Type) : Type :=
| Ok (a : A)
| Err (err : Error)
| Panic.                          (* a method call on a nil connection *)
Arguments Ok {A}.
Arguments Err {A}.
Arguments Panic {A}.

Record clientConn `{Externals} : Type := mkClientConn {
  destination : Socksaddr;
  requestWritten : bool;
  responseRead : bool
}.

Section Model.

Context `{Externals}.

(** [http3.RoundTripper.RoundTrip] as far as [offerNew] depends on it:
    the connection is obtained through the [Dial] closure of
    [CreateTransport], then the request is exchanged over it.  Returns the
    value of [quicConn] afterwards and the result. *)
Definition RoundTrip (o : RoundTripOutcome) (quicConnPtr : option QuicHandle)
    : option QuicHandle * (Error + Response) :=
  match o with
  | QuicDialFailed err => (fst (Dial (inl err) quicConnPtr), inl err)
  | ExchangeFailed q err => (fst (Dial (inr q) quicConnPtr), inl err)
  | Responded q response => (fst (Dial (inr q) quicConnPtr), inr response)
  end.

(** [if quicConn != nil { quicConn.CloseWithError(0, "") }] *)
Definition closeIfDialed (quicConn : option QuicHandle) : list Event :=
  match quicConn with
  | Some q => [QuicCloseWithError q 0 ""]
  | None => []
  end.

(** The value of [actualTx] after the first conditional of [offerNew]. *)
Definition actualTx (c : Client) (authResponse : protocol.AuthResponse) : N :=
  let actualTx := protocol.RespRx authResponse in
  if (actualTx =? 0)%N || (sendBPS c <? actualTx)%N then sendBPS c else actualTx.

(** The calls of [offerNew] up to and including the round trip: the
    dial, the transport (over Salamander when a password is set) and the
    auth POST. *)
Definition handshakeCalls (c : Client) : list Event :=
  [DialContext;
   CreateTransport (negb (String.eqb (salamanderPassword c) ""));
   RoundTripPOST protocol.URLHost protocol.URLPath
     {| protocol.Auth := password c; protocol.Rx := receiveBPS c |}].

(** [offerNew].  [qtls.CreateTransport] always returns a nil error, so the
    branch that handles its error is never taken and has no counterpart
    here. *)
Definition offerNew (c : Client) (net : Network)
    : Result clientQUICConnection * list Event * Client :=
  match dial net with
  | inl err => (Err err, [DialContext], c)
  | inr udpConn =>
      let '(quicConn, result) := RoundTrip (trip net) None in
      let prefix := handshakeCalls c in
      match result with
      | inl err =>
          (Err err, prefix ++ closeIfDialed quicConn ++ [UdpClose udpConn], c)
      | inr response =>
          if negb (StatusCode response =? protocol.StatusAuthOK) then
            (Err (E_New [MStr "authentication failed, status code: ";
                              MInt (StatusCode response)]),
             prefix ++ closeIfDialed quicConn ++ [UdpClose udpConn], c)
          else
            let authResponse := AuthResponseFromHeader (RespHeader response) in
            let actualTx := actualTx c authResponse in
            match quicConn with
            | None => (Panic, prefix ++ [BodyClose], c)
            | Some q =>
                let conn :=
                  {| quicConn := q;
                     quicContextDone := false;
                     rawConn := udpConn;
                     closeOnce := false;
                     connDone := false;
                     connErr := None;
                     conn_udpDisabled :=
                       udpDisabled c || negb (protocol.UDPEnabled authResponse);
                     udpConnMap := ∅;
                     udpSessionID := 0 |} in
                (Ok conn,
                 prefix ++ [BodyClose]
                 ++ (if negb (protocol.RxAuto authResponse) && (0 <? actualTx)%N
                     then [QuicSetCongestionControl q
                             (NewBrutalSender actualTx (brutalDebug c))]
                     else [CallSetCongestionController q "bbr" (cwnd c)])
                 ++ (if negb (udpDisabled c) then [GoLoopMessages q] else []),
                 set_conn c (Some conn))
            end
      end
  end.

Definition active (k : clientQUICConnection) : bool :=
  if quicContextDone k then false
  else if connDone k then false
  else true.

(** [conn != nil && conn.active()] *)
Definition usable (k : option clientQUICConnection) : option clientQUICConnection :=
  match k with
  | Some conn => if active conn then Some conn else None
  | None => None
  end.

(** [offer]: the check before the lock and the one after it. *)
Definition offer (c : Client) (net : Network) : Result clientQUICConnection * list Event * Client :=
  match usable (conn c) with
  | Some conn => (Ok conn, [], c)
  | None =>
      match usable (conn c) with
      | Some conn => (Ok conn, [], c)
      | None => offerNew c net
      end
  end.

Definition uint32 (n : N) : N := (n mod 2 ^ 32)%N.

(** The connection after [ListenPacket] registered [pc]: the session
    counter is a uint32 and wraps. *)
Definition registerSession (k : clientQUICConnection) (pc : udpPacketConn)
    : clientQUICConnection :=
  {| quicConn := quicConn k;
     quicContextDone := quicContextDone k;
     rawConn := rawConn k;
     closeOnce := closeOnce k;
     connDone := connDone k;
     connErr := connErr k;
     conn_udpDisabled := conn_udpDisabled k;
     udpConnMap := <[sessionID pc := pc]> (udpConnMap k);
     udpSessionID := uint32 (udpSessionID k + 1) |}.

(** The close callback [ListenPacket] gives the packet conn:
    [delete(conn.udpConnMap, sessionID)]. *)
Definition removeSession (k : clientQUICConnection) (id : N) : clientQUICConnection :=
  {| quicConn := quicConn k;
     quicContextDone := quicContextDone k;
     rawConn := rawConn k;
     closeOnce := closeOnce k;
     connDone := connDone k;
     connErr := connErr k;
     conn_udpDisabled := conn_udpDisabled k;
     udpConnMap := delete id (udpConnMap k);
     udpSessionID := udpSessionID k |}.

(** [ListenPacket].  The connection [offer] returns is the one the client
    stores, so the registration is visible through [c.conn]; the packet
    conn in the table and the one returned are one object, whose
    [sessionID] is the id it is registered under. *)
Definition ListenPacket (c : Client) (net : Network)
    : Result udpPacketConn * list Event * Client :=
  if udpDisabled c then (Err os_ErrInvalid, [], c)
  else
    let '(r, tr, c1) := offer c net in
    match r with
    | Err err => (Err err, tr, c1)
    | Panic => (Panic, tr, c1)
    | Ok conn =>
        if conn_udpDisabled conn then
          (Err (E_New [MStr "UDP disabled by server"]), tr, c1)
        else
          let sessionID := udpSessionID conn in
          let clientPacketConn :=
            {| pc_quicConn := quicConn conn; sessionID := sessionID |} in
          (Ok clientPacketConn, tr,
           set_conn c1 (Some (registerSession conn clientPacketConn)))
    end.

(** [clientQUICConnection.closeWithError] *)
Definition closeWithError (k : clientQUICConnection) (err : Error)
    : clientQUICConnection * list Event :=
  if closeOnce k then (k, [])
  else
    ({| quicConn := quicConn k;
        quicContextDone := quicContextDone k;
        rawConn := rawConn k;
        closeOnce := true;
        connDone := true;
        connErr := Some err;
        conn_udpDisabled := conn_udpDisabled k;
        udpConnMap := udpConnMap k;
        udpSessionID := udpSessionID k |},
     [QuicCloseWithError (quicConn k) 0 ""]).

(** *** [clientConn] *)

(** The conn [DialConn] wraps around a newly opened stream. *)
Definition newClientConn (dst : Socksaddr) : clientConn :=
  {| destination := dst; requestWritten := false; responseRead := false |}.

Definition markResponseRead (c : clientConn) : clientConn :=
  {| destination := destination c;
     requestWritten := requestWritten c;
     responseRead := true |}.


Definition Read (c : clientConn) (len : nat) (a : StreamAnswers)
    : (Z * option Error) * clientConn * list StreamCall :=
  if responseRead c then
    ((fst (onRead a), WrapQUIC (snd (onRead a))), c, [StreamRead len])
  else
    match onReadTCPResponse a with
    | inl err => ((0, WrapQUIC (Some err)), c, [ReadTCPResponse])
    | inr (status, errorMessage) =>
        if negb status then
          ((0, Some (E_New [MStr "remote error: "; MStr errorMessage])), c,
           [ReadTCPResponse])
        else
          ((fst (onRead a), WrapQUIC (snd (onRead a))), markResponseRead c,
           [ReadTCPResponse; StreamRead len])
    end.


(** Successive reads on one conn, each with what the stream answers. *)
Fixpoint runReads (c : clientConn) (reads : list (nat * StreamAnswers))
    : list ((Z * option Error) * list StreamCall) * clientConn :=
  match reads with
  | [] => ([], c)
  | (len, a) :: rest =>
      let '(r, c1, calls) := Read c len a in
      let '(rs, c2) := runReads c1 rest in
      ((r, calls) :: rs, c2)
  end.

(** *** Observations on a trace *)

Definition installedBy (e : Event) : option (QuicHandle * Controller) :=
  match e with
  | QuicSetCongestionControl q c => Some (q, c)
  | CallSetCongestionController q name w => Some (q, SetCongestionController name w)
  | _ => None
  end.

Definition installs (tr : list Event) : list (QuicHandle * Controller) :=
  omap installedBy tr.

Definition loopStartedBy (e : Event) : option QuicHandle :=
  match e with GoLoopMessages q => Some q | _ => None end.

(** The connections a receive loop was started for. *)
Definition loops (tr : list Event) : list QuicHandle := omap loopStartedBy tr.

(** The rule for the receive loop in the words of the specification:
    after a successful handshake the loop runs if and only if UDP is
    enabled both locally and by the auth response. *)
Definition specifiedLoopRule (c : Client) (net : Network) : Prop :=
  match dial net, trip net with
  | inr _, Responded q response =>
      StatusCode response = protocol.StatusAuthOK ->
      (loops (snd (fst (offerNew c net))) = [q]
       <-> udpDisabled c = false
           /\ protocol.UDPEnabled (AuthResponseFromHeader (RespHeader response)) = true)
  | _, _ => True
  end.

(** Every registered session id is below the session counter: so it is
    on a new connection, and as long as the counter has not wrapped. *)
Definition sessionsBelow (k : clientQUICConnection) : Prop :=
  forall id pc, udpConnMap k !! id = Some pc -> (id < udpSessionID k)%N.

(** A read that only passes through to the stream. *)
Definition passThrough (read : nat * StreamAnswers)
    : (Z * option Error) * list StreamCall :=
  ((fst (onRead (snd read)), WrapQUIC (snd (onRead (snd read)))),
   [StreamRead (fst read)]).

End Model.

End client.

(** ** A concrete setting, used to run the model *)

Module example.

(** Headers kept in decoded form: a header is the auth request and the
    auth response it decodes to. *)
Definition externals : Externals :=
  {| Header := protocol.AuthRequest * protocol.AuthResponse;
     AuthRequestFromHeader := fst;
     AuthResponseFromHeader := snd;
     FrameTypeTCPRequest := 1025;
     Socksaddr := string;
     ParseSocksaddr := fun s => s;
     SocksaddrString := fun s => s;
     WrapQUIC := fun e => e |}.

Definition noResponse : protocol.AuthResponse :=
  {| protocol.UDPEnabled := false; protocol.RespRx := 0; protocol.RxAuto := false |}.

Definition noRequest : protocol.AuthRequest :=
  {| protocol.Auth := ""; protocol.Rx := 0 |}.

(** The auth POST of a client with the given password and receive rate. *)
Definition authPOST (auth : string) (rx : N) : @server.Request externals :=
  @server.mkRequest externals "POST" "hysteria" "/auth"
    ({| protocol.Auth := auth; protocol.Rx := rx |}, noResponse).

(** An ordinary web request. *)
Definition getIndex : @server.Request externals :=
  @server.mkRequest externals "GET" "example.com" "/" (noRequest, noResponse).

(** A service with one user, password ["p"], sending at most 80 Mbps. *)
Definition svc (ignore : bool) : server.Service nat :=
  {| server.ctx_Done := true;
     server.brutalDebug := false;
     server.sendBPS := 80000000;
     server.receiveBPS := 0;
     server.ignoreClientBandwidth := ignore;
     server.salamanderPassword := "";
     server.userMap := {[ "p" := 7%nat ]};
     server.udpDisabled := false;
     server.cwnd := 32 |}.

Definition session (ignore : bool) : @server.serverSession externals nat :=
  @server.newSession externals nat _ (svc ignore) "198.51.100.7:4433".

Definition authedSession : @server.serverSession externals nat :=
  fst (@server.ServeHTTP externals nat (session false) (authPOST "p" 50000000)).

(** A client sending at most 100 Mbps and asking for 50 Mbps. *)
Definition cli (udpOff : bool) : client.Client :=
  client.NewClient
    {| client.BrutalDebug := false;
       client.SendBPS := 100000000;
       client.ReceiveBPS := 50000000;
       client.SalamanderPassword := "";
       client.Password := "p";
       client.UDPDisabled := udpOff;
       client.CWND := 32 |}.

Definition q1 : qtls.QuicHandle := {| qtls.quic_id := 1 |}.
Definition u1 : qtls.UdpHandle := {| qtls.udp_id := 1 |}.

(** A network on which the server answers the auth POST with [status]
    and the headers of [response]. *)
Definition answering (status : Z) (response : protocol.AuthResponse)
    : @client.Network externals :=
  @client.mkNetwork externals (inr u1)
    (@client.Responded externals q1
       (@client.mkResponse externals status (noRequest, response))).

(** The auth response of a server that grants 50 Mbps, with UDP on or off. *)
Definition granted (udp : bool) : protocol.AuthResponse :=
  {| protocol.UDPEnabled := udp; protocol.RespRx := 50000000; protocol.RxAuto := false |}.

Definition grantedHeaders (udp : bool) : @client.Response externals :=
  @client.mkResponse externals 233 (noRequest, granted udp).

Definition notFound : @client.Response externals :=
  @client.mkResponse externals 404 (noRequest, noResponse).

(** A session of four requests: an ordinary request, a wrong password,
    the right one, and the right one again. *)
Definition fourRequests : list (@server.SessionStep externals nat) :=
  [server.Serve getIndex;
   server.Serve (authPOST "q" 50000000);
   server.Serve (authPOST "p" 50000000);
   server.Serve (authPOST "p" 50000000)].

Definition destinationConn : @client.clientConn externals :=
  @client.newClientConn externals "example.com:80".

Definition okStream : StreamAnswers :=
  {| onReadTCPRequest := inr "example.com:80";
     onReadTCPResponse := inr (true, "");
     onRead := (5, None);
     onWrite := (5, None) |}.

Definition refusedStream : StreamAnswers :=
  {| onReadTCPRequest := inr "example.com:80";
     onReadTCPResponse := inr (false, "connection refused");
     onRead := (5, None);
     onWrite := (5, None) |}.

End example.

(** ** More of the server: one connection, the accept loop *)

Section ServerLife.

Import server.

Context `{Externals} {U : Type} `{Inhabited U}.

(** What the HTTP/3 server of [handleConnection] does with the session
    while [ServeQUICConn] runs: it calls the handler for a request, or the
    stream hijacker for a stream whose first frame is not an HTTP/3 one;
    in between, the embedder may call [UpdateUsers]. *)
Inductive Activity : Type :=
| HTTPRequest (r : Request)
| StreamPeek (frameType : N) (err : option Error)
| UsersUpdate (userList : list U) (passwordList : list string).

Definition activityStep (s : serverSession U) (a : Activity)
    : serverSession U * list Event :=
  match a with
  | HTTPRequest r => ServeHTTP s r
  | StreamPeek frameType err => (s, snd (handleStream0 s frameType err))
  | UsersUpdate userList passwordList =>
      match UpdateUsers (service s) userList passwordList with
      | Some svc => (withService s svc, [])
      | None => (s, [])
      end
  end.

Fixpoint runActivities (s : serverSession U) (acts : list Activity)
    : serverSession U * list Event :=
  match acts with
  | [] => (s, [])
  | a :: rest =>
      let '(s1, tr1) := activityStep s a in
      let '(s2, tr2) := runActivities s1 rest in
      (s2, tr1 ++ tr2)
  end.

(** [handleConnection]: a new session serves until [ServeQUICConn]
    returns, then the connection is closed with error code 0. *)
Definition handleConnection (svc : Service U) (remote : Socksaddr)
    (acts : list Activity) : serverSession U * list Event :=
  let '(s, tr) := runActivities (newSession svc remote) acts in
  (s, tr ++ [QuicCloseWithError 0 ""]).

(** The requests among the activities of a connection, in order. *)
Definition requestOf (a : Activity) : option Request :=
  match a with HTTPRequest r => Some r | _ => None end.

Definition requestsOf (acts : list Activity) : list Request := omap requestOf acts.

Definition isHijack (e : Event) : bool :=
  match e with Go StreamHandler => true | _ => false end.

(** Successive [closeWithError] calls on one session. *)
Fixpoint closeAll (s : serverSession U) (errs : list Error)
    : serverSession U * list Event :=
  match errs with
  | [] => (s, [])
  | err :: rest =>
      let '(s1, tr1) := closeWithError s err in
      let '(s2, tr2) := closeAll s1 rest in
      (s2, tr1 ++ tr2)
  end.

End ServerLife.

(** Calls of the accept loop. *)
Inductive AcceptCall : Type :=
| GoHandleConnection (connection : qtls.QuicHandle)
| LoggerDebugClosed (err : Error)       (* s.logger.Debug(E.Cause(err, "listener closed")) *)
| LoggerErrorClosed (err : Error).      (* s.logger.Error(E.Cause(err, "listener closed")) *)

(** [loopConnections] over what [listener.Accept] returns call after
    call; [IsClosedOrCanceled] is [E.IsClosedOrCanceled], not among the
    sources.  The boolean tells whether the loop has returned: when the
    answers run out it is still blocked in [Accept]. *)
Fixpoint loopConnections (IsClosedOrCanceled : Error -> bool)
    (accepts : list (Error + qtls.QuicHandle)) : list AcceptCall * bool :=
  match accepts with
  | [] => ([], false)
  | inl err :: _ =>
      ([if IsClosedOrCanceled err then LoggerDebugClosed err
        else LoggerErrorClosed err],
       true)
  | inr connection :: rest =>
      let '(calls, returned) := loopConnections IsClosedOrCanceled rest in
      (GoHandleConnection connection :: calls, returned)
  end.



(** ** More of the client: dialing streams, closing, many sessions *)

Section ClientLife.

Import qtls client.

Context `{Externals}.

(** [Client.CloseWithError]: the stored connection, if any, is closed in
    place; the result is always nil. *)
Definition Client_CloseWithError (c : Client) (err : Error) : Client * list Event :=
  match conn c with
  | Some k =>
      let '(k', tr) := closeWithError k err in
      (set_conn c (Some k'), tr)
  | None => (c, [])
  end.

(** Calls of [DialConn]: those of [offer], then [OpenStream]. *)
Inductive DialCall : Type :=
| OfferCall (e : Event)
| OpenStream (q : QuicHandle).

(** [DialConn]; [opened] is the error of [conn.quicConn.OpenStream()],
    if any. *)
Definition DialConn (c : Client) (net : Network) (opened : option Error)
    (dst : Socksaddr) : Result clientConn * list DialCall * Client :=
  let '(r, tr, c1) := offer c net in
  match r with
  | Err err => (Err err, map OfferCall tr, c1)
  | Panic => (Panic, map OfferCall tr, c1)
  | Ok k =>
      match opened with
      | Some err => (Err err, map OfferCall tr ++ [OpenStream (quicConn k)], c1)
      | None =>
          (Ok {| destination := dst; requestWritten := false; responseRead := false |},
           map OfferCall tr ++ [OpenStream (quicConn k)], c1)
      end
  end.

Definition NeedHandshake (x : clientConn) : bool := negb (requestWritten x).




(** [n] successive [ListenPacket] calls. *)
Fixpoint listenMany (n : nat) (c : Client) (net : Network)
    : list (Result udpPacketConn * list Event) * Client :=
  match n with
  | O => ([], c)
  | S m =>
      let '(r, tr, c1) := ListenPacket c net in
      let '(rs, c2) := listenMany m c1 net in
      ((r, tr) :: rs, c2)
  end.

(** The close callback of a packet conn, run while the connection it was
    opened on is still the one the client stores. *)
Definition closePacketConn (c : Client) (pc : udpPacketConn) : Client :=
  match conn c with
  | Some k => set_conn c (Some (removeSession k (sessionID pc)))
  | None => c
  end.

(** The close flag and the done channel go together: [connDone] is only
    closed inside [closeOnce]. *)
Definition closedTogether (k : clientQUICConnection) : Prop :=
  closeOnce k = connDone k.

Definition isClose (e : Event) : bool :=
  match e with
  | QuicCloseWithError _ _ _ => true
  | UdpClose _ => true
  | _ => false
  end.

(** The connection the QUIC dial of a round trip produced, if any. *)
Definition dialed (o : RoundTripOutcome) : option QuicHandle :=
  match o with
  | QuicDialFailed _ => None
  | ExchangeFailed q _ => Some q
  | Responded q _ => Some q
  end.

End ClientLife.

(** ** More of the concrete setting *)

Module demo.

Definition HTTP (r : @server.Request example.externals)
    : @Activity example.externals nat :=
  @HTTPRequest example.externals nat r.

Definition peekTCP : @Activity example.externals nat :=
  @StreamPeek example.externals nat 1025 None.

Definition dropUsers : @Activity example.externals nat :=
  @UsersUpdate example.externals nat [] [].

(** A visitor: two requests and a stream, no valid password. *)
Definition visitor : list (@Activity example.externals nat) :=
  [HTTP example.getIndex; peekTCP; HTTP (example.authPOST "q" 1)].

(** A user: the auth request, then a TCP stream. *)
Definition user : list (@Activity example.externals nat) :=
  [HTTP (example.authPOST "p" 50000000); peekTCP].

(** After the auth request, all users are removed and the session goes
    on. *)
Definition revoked : list (@Activity example.externals nat) :=
  [dropUsers; HTTP (example.authPOST "p" 1); peekTCP].

(** A network that cannot be reached. *)
Definition unreachable : @client.Network example.externals :=
  @client.mkNetwork example.externals (inl (ExternalError "unreachable"))
    (@client.QuicDialFailed example.externals (ExternalError "unreachable")).

Definition network : @client.Network example.externals :=
  example.answering 233 (example.granted true).

(** The connection of scenario 1 and the client that stores it. *)
Definition conn0 : client.clientQUICConnection :=
  {| client.quicConn := example.q1;
     client.quicContextDone := false;
     client.rawConn := example.u1;
     client.closeOnce := false;
     client.connDone := false;
     client.connErr := None;
     client.conn_udpDisabled := false;
     client.udpConnMap := ∅;
     client.udpSessionID := 0 |}.

Definition client0 : client.Client :=
  client.set_conn (example.cli false) (Some conn0).

Definition handshake0 : list client.Event :=
  [client.DialContext;
   client.CreateTransport false;
   client.RoundTripPOST "hysteria" "/auth"
     {| protocol.Auth := "p"; protocol.Rx := 50000000 |};
   client.BodyClose;
   client.QuicSetCongestionControl example.q1 (NewBrutalSender 50000000 false);
   client.GoLoopMessages example.q1].

(** A stream that refuses every write. *)
Definition brokenStream : StreamAnswers :=
  {| onReadTCPRequest := inr "example.com:80";
     onReadTCPResponse := inl (ExternalError "reset");
     onRead := (0, Some (ExternalError "reset"));
     onWrite := (0, Some (ExternalError "reset")) |}.




Definition idle : Error := ExternalError "idle timeout".

(** Options that ask for an initial window of 64. *)
Definition options : server.ServiceOptions :=
  {| server.Context_Done := true;
     server.BrutalDebug := false;
     server.SendBPS := 80000000;
     server.ReceiveBPS := 0;
     server.IgnoreClientBandwidth := true;
     server.SalamanderPassword := "";
     server.UDPDisabled := false;
     server.CWND := 64 |}.

(** The service built from them, with one user. *)
Definition built : server.Service nat :=
  server.set_userMap (server.NewService options) {[ "p"%string := 7%nat ]}.

(** Requests and streams only, no [UpdateUsers]. *)
Definition knocking : list (@Activity example.externals nat) :=
  [HTTP (example.authPOST "p" 50000000); peekTCP; HTTP example.getIndex].

(** What the server does for [user] before it takes the stream. *)
Definition beforeStream : list (@server.Event example.externals) :=
  [@server.QuicSetCongestionControl example.externals (NewBrutalSender 50000000 false);
   server.AuthResponseToHeader (server.sessionAuthResponse (example.session false));
   server.WriteHeader 233;
   server.Go server.AwaitContextDone;
   server.Go server.LoopMessages].

End demo.

(** * Properties of the server *)

Section ServerProperties.

Import server.

Context `{Externals} {U : Type} `{Inhabited U}.

Implicit Types (s : serverSession U) (r : Request) (svc : Service U).

(** The rate [ServeHTTP] computes for Brutal is the smaller of the two
    caps whenever the client asked for a rate. *)
Lemma sendBps_smallerCap svc (request : protocol.AuthRequest) :
  (if (0 <? sendBPS svc)%N && (sendBPS svc <? protocol.Rx request)%N
   then sendBPS svc else protocol.Rx request)
  = smallerCap svc request.
Proof.
  unfold smallerCap.
  destruct (N.eqb_spec (sendBPS svc) 0) as [-> | Hne].
  - reflexivity.
  - assert (Hpos : (0 <? sendBPS svc)%N = true) by (apply N.ltb_lt; lia).
    rewrite Hpos. cbn [andb].
    destruct (N.ltb_spec (sendBPS svc) (protocol.Rx request)); lia.
Qed.

(** An accepted auth request: what [ServeHTTP] does, step by step. *)
Lemma ServeHTTP_accept s r user :
  authenticated s = false ->
  isAuthURL r = true ->
  userMap (service s) !! protocol.Auth (AuthRequestFromHeader (ReqHeader r)) = Some user ->
  let request := AuthRequestFromHeader (ReqHeader r) in
  ServeHTTP s r =
    (setAuthenticated s user,
     (if negb (ignoreClientBandwidth (service s)) && (0 <? protocol.Rx request)%N
      then [QuicSetCongestionControl
              (NewBrutalSender (smallerCap (service s) request)
                 (brutalDebug (service s)))]
      else [CallSetCongestionController "bbr" (cwnd (service s))])
     ++ [AuthResponseToHeader (sessionAuthResponse s);
         WriteHeader protocol.StatusAuthOK]
     ++ (if ctx_Done (service s) then [Go AwaitContextDone] else [])
     ++ (if negb (udpDisabled (service s)) then [Go LoopMessages] else [])).
Proof.
  intros Hauth Hurl Huser request. unfold ServeHTTP.
  rewrite Hurl, Hauth, Huser. cbn [setAuthenticated service].
  rewrite sendBps_smallerCap. reflexivity.
Qed.

(** A request outside the auth URL leaves any session as it is. *)
Lemma ServeHTTP_other_url s r :
  isAuthURL r = false -> ServeHTTP s r = (s, [MasqueradeServeHTTP r]).
Proof. intros Hurl. unfold ServeHTTP. rewrite Hurl. reflexivity. Qed.

(** An auth request with an unknown password on a session that is not
    authenticated. *)
Lemma ServeHTTP_unknown s r :
  authenticated s = false ->
  isAuthURL r = true ->
  userMap (service s) !! protocol.Auth (AuthRequestFromHeader (ReqHeader r)) = None ->
  ServeHTTP s r = (s, [MasqueradeServeHTTP r]).
Proof.
  intros Hauth Hurl Huser. unfold ServeHTTP. rewrite Hurl, Hauth, Huser. reflexivity.
Qed.

(** An auth POST on an authenticated session, whatever its password. *)
Lemma ServeHTTP_replay s r :
  authenticated s = true ->
  isAuthURL r = true ->
  ServeHTTP s r =
    (s, [AuthResponseToHeader (sessionAuthResponse s);
         WriteHeader protocol.StatusAuthOK]).
Proof. intros Hauth Hurl. unfold ServeHTTP. rewrite Hurl, Hauth. reflexivity. Qed.

Lemma installs_app (tr1 tr2 : list Event) :
  installs (tr1 ++ tr2) = installs tr1 ++ installs tr2.
Proof. unfold installs. apply omap_app. Qed.

Lemma advertised_app (tr1 tr2 : list Event) :
  advertised (tr1 ++ tr2) = advertised tr1 ++ advertised tr2.
Proof. unfold advertised. apply omap_app. Qed.

(** The controllers and auth responses of an accepted auth request. *)
Lemma accept_observed s r user :
  authenticated s = false ->
  isAuthURL r = true ->
  userMap (service s) !! protocol.Auth (AuthRequestFromHeader (ReqHeader r)) = Some user ->
  let request := AuthRequestFromHeader (ReqHeader r) in
  let tr := snd (ServeHTTP s r) in
  installs tr =
    [if negb (ignoreClientBandwidth (service s)) && (0 <? protocol.Rx request)%N
     then NewBrutalSender (smallerCap (service s) request) (brutalDebug (service s))
     else BBR (cwnd (service s))]
  /\ advertised tr = [sessionAuthResponse s].
Proof.
  intros Hauth Hurl Huser request tr. subst tr.
  rewrite (ServeHTTP_accept s r user Hauth Hurl Huser). cbn [snd].
  fold request.
  rewrite !installs_app, !advertised_app.
  destruct (negb _ && _), (ctx_Done _), (negb (udpDisabled _)); split; reflexivity.
Qed.


(** C4: on a session that is not authenticated, a request outside the
    auth URL, and an auth request whose password is not in the user map,
    are handed to the masquerade handler and to nothing else; the session
    keeps [authenticated = false] and its [authUser], and the QUIC
    connection is not closed. *)
Theorem masquerade_property s r :
  authenticated s = false ->
  isAuthURL r = false
  \/ userMap (service s) !! protocol.Auth (AuthRequestFromHeader (ReqHeader r)) = None ->
  let s' := fst (ServeHTTP s r) in
  let tr := snd (ServeHTTP s r) in
  tr = [MasqueradeServeHTTP r]
  /\ masqueraded tr = [r]
  /\ authenticated s' = false
  /\ authUser s' = authUser s
  /\ closes tr = []
  /\ installs tr = [].
Proof.
  intros Hauth Hcase s' tr.
  assert (Hrun : ServeHTTP s r = (s, [MasqueradeServeHTTP r])).
  { destruct (isAuthURL r) eqn:Hurl.
    - destruct Hcase as [Hno | Hno]; [discriminate |].
      apply ServeHTTP_unknown; assumption.
    - apply ServeHTTP_other_url; assumption. }
  subst s' tr. rewrite Hrun. cbn [fst snd]. repeat split; auto.
Qed.

Lemma installs_ServeHTTP s r :
  (length (installs (snd (ServeHTTP s r)))
   + (if authenticated s then 1 else 0)
   = if authenticated (fst (ServeHTTP s r)) then 1 else 0)%nat.
Proof.
  unfold ServeHTTP.
  destruct (isAuthURL r); [| cbn; lia].
  destruct (authenticated s) eqn:Hauth; [cbn; rewrite Hauth; reflexivity |].
  destruct (userMap (service s) !! _); [| cbn; rewrite Hauth; reflexivity].
  cbn [fst snd setAuthenticated authenticated service].
  rewrite !installs_app.
  destruct (negb _ && _), (ctx_Done _), (negb (udpDisabled _)); reflexivity.
Qed.

Lemma installs_sessionStep s (st : SessionStep) :
  (length (installs (snd (sessionStep s st)))
   + (if authenticated s then 1 else 0)
   = if authenticated (fst (sessionStep s st)) then 1 else 0)%nat.
Proof.
  destruct st as [r | userList passwordList]; cbn [sessionStep].
  - apply installs_ServeHTTP.
  - destruct (UpdateUsers _ _ _); reflexivity.
Qed.

(** Over any run of a session, one controller is installed when the
    session becomes authenticated and none at any other time. *)
Lemma installs_runSession (steps : list SessionStep) : forall s,
  (length (installs (snd (runSession s steps)))
   + (if authenticated s then 1 else 0)
   = if authenticated (fst (runSession s steps)) then 1 else 0)%nat.
Proof.
  induction steps as [| st rest IH]; intros s; cbn [runSession].
  - reflexivity.
  - pose proof (installs_sessionStep s st) as Hst.
    destruct (sessionStep s st) as [s1 tr1]. cbn [fst snd] in Hst.
    specialize (IH s1).
    destruct (runSession s1 rest) as [s2 tr2]. cbn [fst snd] in IH |- *.
    rewrite installs_app, length_app. lia.
Qed.

(** C5: over any sequence of requests (and user-map updates) a session
    serves from its creation, exactly one congestion controller has been
    installed if the session is authenticated and none if it is not; the
    request that authenticates the session is the one that installs it; an
    auth POST on an authenticated session writes the auth response headers
    and [StatusAuthOK], installs nothing and leaves the session, and so its
    user, as they are. *)
Theorem controller_installed_once :
  (forall svc remote (steps : list SessionStep),
      length (installs (snd (runSession (newSession svc remote) steps)))
      = if authenticated (fst (runSession (newSession svc remote) steps))
        then 1%nat else 0%nat)
  /\ (forall s r,
        authenticated s = false ->
        authenticated (fst (ServeHTTP s r)) = true ->
        length (installs (snd (ServeHTTP s r))) = 1%nat)
  /\ (forall s r,
        authenticated s = true ->
        isAuthURL r = true ->
        ServeHTTP s r =
          (s, [AuthResponseToHeader (sessionAuthResponse s);
               WriteHeader protocol.StatusAuthOK])
        /\ statuses (snd (ServeHTTP s r)) = [protocol.StatusAuthOK]
        /\ installs (snd (ServeHTTP s r)) = []
        /\ authUser (fst (ServeHTTP s r)) = authUser s).
Proof.
  split; [| split].
  - intros svc remote steps.
    pose proof (installs_runSession steps (newSession svc remote)) as Hrun.
    cbn [newSession authenticated] in Hrun. lia.
  - intros s r Hauth Hafter.
    pose proof (installs_ServeHTTP s r) as Hstep.
    rewrite Hauth, Hafter in Hstep. lia.
  - intros s r Hauth Hurl.
    rewrite (ServeHTTP_replay s r Hauth Hurl). auto.
Qed.


(** The whole of the stream handler on a readable request: the handler
    is called, then the stream is shut once. *)
Lemma streamHandler_served s (a : StreamAnswers) destinationString :
  onReadTCPRequest a = inr destinationString ->
  streamHandler s a =
    [OnStream ReadTCPRequest;
     HandlerNewConnection (authUser s) {| responseWritten := false |}
       (source s) (ParseSocksaddr destinationString);
     OnStream (CancelRead 0);
     OnStream StreamClose].
Proof. intros Hd. unfold streamHandler, handleStream. rewrite Hd. reflexivity. Qed.

(** [closeWithError] closes the QUIC connection the first time only. *)
Lemma server_closeWithError_once s e1 e2 :
  snd (closeWithError (fst (closeWithError s e1)) e2) = [].
Proof.
  unfold closeWithError. destruct (connDone s) eqn:Hd; cbn [fst].
  - rewrite Hd. reflexivity.
  - reflexivity.
Qed.

(** When the TCP request cannot be read, the handler is not called. *)
Lemma handleStream_unreadable s (a : StreamAnswers) e :
  onReadTCPRequest a = inl e ->
  handleStream s a = (Some (E_New [MStr "read TCP request"]), [OnStream ReadTCPRequest]).
Proof. intros Hr. unfold handleStream. rewrite Hr. reflexivity. Qed.

End ServerProperties.

(** * Properties of the server's stream conn *)

Section ServerConnProperties.

Import server.

Context `{Externals}.

Implicit Types (c : serverConn) (a : StreamAnswers).

Lemma responseFrames_app (tr1 tr2 : list StreamCall) :
  responseFrames (tr1 ++ tr2) = (responseFrames tr1 + responseFrames tr2)%nat.
Proof. unfold responseFrames. rewrite filter_app, length_app. reflexivity. Qed.

(** One call writes a response frame exactly when it latches
    [responseWritten]; the latch is never released. *)
Lemma frames_connStep c (call : ConnCall * StreamAnswers) :
  (responseFrames (snd (connStep c call))
   + (if responseWritten c then 1 else 0)
   = if responseWritten (fst (connStep c call)) then 1 else 0)%nat.
Proof.
  destruct call as [[| message | p | len] a]; cbn [connStep];
    unfold HandshakeSuccess, HandshakeFailure, serverConn_Write, serverConn_Read.
  - destruct (responseWritten c) eqn:Hw; cbn; [rewrite Hw |]; reflexivity.
  - destruct (responseWritten c) eqn:Hw; cbn; [rewrite Hw |]; reflexivity.
  - destruct (responseWritten c) eqn:Hw; cbn [negb].
    + cbn. rewrite Hw. reflexivity.
    + destruct (snd (onWrite a)); reflexivity.
  - cbn. destruct (responseWritten c); reflexivity.
Qed.

Lemma frames_runConn (calls : list (ConnCall * StreamAnswers)) : forall c,
  (responseFrames (snd (runConn c calls))
   + (if responseWritten c then 1 else 0)
   = if responseWritten (fst (runConn c calls)) then 1 else 0)%nat.
Proof.
  induction calls as [| call rest IH]; intros c; cbn [runConn].
  - reflexivity.
  - pose proof (frames_connStep c call) as Hst.
    destruct (connStep c call) as [c1 tr1]. cbn [fst snd] in Hst.
    specialize (IH c1).
    destruct (runConn c1 rest) as [c2 tr2]. cbn [fst snd] in IH |- *.
    rewrite responseFrames_app. lia.
Qed.

(** C10: over any sequence of calls on a server stream conn at most one
    TCP-response frame is written, and none once [responseWritten] is set;
    on a conn whose response is not written yet, [HandshakeSuccess],
    [HandshakeFailure] and [Write] each latch [responseWritten] and write
    one response frame, [Write] a success frame carrying [p], for which it
    reports [len(p)] when the stream took it; once [responseWritten] is
    set, [HandshakeSuccess] returns nil and [HandshakeFailure] returns
    [os.ErrClosed], and neither writes anything. *)
Theorem single_response_frame :
  (forall c (calls : list (ConnCall * StreamAnswers)),
      (responseFrames (snd (runConn c calls)) <= 1)%nat
      /\ (responseWritten c = true -> responseFrames (snd (runConn c calls)) = 0%nat))
  /\ (forall c a message p,
        responseWritten c = false ->
        HandshakeSuccess c a =
          (snd (onWrite a), {| responseWritten := true |},
           [StreamWrite (WriteTCPResponse true "" [])])
        /\ HandshakeFailure c message a =
             (snd (onWrite a), {| responseWritten := true |},
              [StreamWrite (WriteTCPResponse false message [])])
        /\ snd (serverConn_Write c p a) = [StreamWrite (WriteTCPResponse true "" p)]
        /\ snd (fst (serverConn_Write c p a)) = {| responseWritten := true |}
        /\ (snd (onWrite a) = None ->
            fst (fst (serverConn_Write c p a)) = (Z.of_nat (length p), None)))
  /\ (forall c a message,
        responseWritten c = true ->
        HandshakeSuccess c a = (None, c, [])
        /\ HandshakeFailure c message a = (Some os_ErrClosed, c, [])).
Proof.
  split; [| split].
  - intros c calls. pose proof (frames_runConn calls c) as Hrun.
    destruct (responseWritten c), (responseWritten (fst (runConn c calls)));
      split; intros; try discriminate; lia.
  - intros c a message p Hw.
    unfold HandshakeSuccess, HandshakeFailure, serverConn_Write.
    rewrite Hw. cbn [negb].
    repeat split; try (destruct (snd (onWrite a)); reflexivity).
    intros ->. reflexivity.
  - intros c a message Hw. unfold HandshakeSuccess, HandshakeFailure.
    rewrite Hw. split; reflexivity.
Qed.

(** A first [Write] the stream refuses reports no byte and the wrapped
    error; the response frame still counts as written. *)
Lemma first_Write_refused c a p e :
  responseWritten c = false ->
  snd (onWrite a) = Some e ->
  serverConn_Write c p a =
    ((0, WrapQUIC (Some e)), {| responseWritten := true |},
     [StreamWrite (WriteTCPResponse true "" p)]).
Proof.
  intros Hw He. unfold serverConn_Write. rewrite Hw, He. reflexivity.
Qed.

End ServerConnProperties.

(** * Properties of the client *)

Section ClientProperties.

Import qtls client.

Context `{Externals}.

Implicit Types (c : Client) (net : Network) (k : clientQUICConnection).

Lemma client_installs_app (tr1 tr2 : list Event) :
  installs (tr1 ++ tr2) = installs tr1 ++ installs tr2.
Proof. unfold installs. apply omap_app. Qed.

Lemma client_loops_app (tr1 tr2 : list Event) :
  loops (tr1 ++ tr2) = loops tr1 ++ loops tr2.
Proof. unfold loops. apply omap_app. Qed.

(** [offerNew] after a round trip answered with [StatusAuthOK]. *)
Lemma offerNew_authenticated c net udpConn q response :
  dial net = inr udpConn ->
  trip net = Responded q response ->
  StatusCode response = protocol.StatusAuthOK ->
  let authResponse := AuthResponseFromHeader (RespHeader response) in
  let conn0 :=
    {| quicConn := q;
       quicContextDone := false;
       rawConn := udpConn;
       closeOnce := false;
       connDone := false;
       connErr := None;
       conn_udpDisabled := udpDisabled c || negb (protocol.UDPEnabled authResponse);
       udpConnMap := ∅;
       udpSessionID := 0 |} in
  offerNew c net =
    (Ok conn0,
     handshakeCalls c ++ [BodyClose]
     ++ (if negb (protocol.RxAuto authResponse) && (0 <? actualTx c authResponse)%N
         then [QuicSetCongestionControl q
                 (NewBrutalSender (actualTx c authResponse) (brutalDebug c))]
         else [CallSetCongestionController q "bbr" (cwnd c)])
     ++ (if negb (udpDisabled c) then [GoLoopMessages q] else []),
     set_conn c (Some conn0)).
Proof.
  intros Hdial Htrip Hstatus authResponse conn0.
  unfold offerNew. rewrite Hdial, Htrip. cbn [RoundTrip Dial fst].
  rewrite Hstatus, Z.eqb_refl. reflexivity.
Qed.

(** [offerNew] after a round trip answered with another status. *)
Lemma offerNew_rejected c net udpConn q response :
  dial net = inr udpConn ->
  trip net = Responded q response ->
  StatusCode response <> protocol.StatusAuthOK ->
  offerNew c net =
    (Err (E_New [MStr "authentication failed, status code: ";
                 MInt (StatusCode response)]),
     handshakeCalls c ++ [QuicCloseWithError q 0 ""; UdpClose udpConn],
     c).
Proof.
  intros Hdial Htrip Hstatus.
  unfold offerNew. rewrite Hdial, Htrip. cbn [RoundTrip Dial fst].
  destruct (Z.eqb_spec (StatusCode response) protocol.StatusAuthOK) as [Heq | _];
    [contradiction | reflexivity].
Qed.

(** [offerNew] after a round trip that failed: the QUIC connection is
    closed if the dial had succeeded, and the UDP socket in any case. *)
Lemma offerNew_round_trip_failed c net udpConn :
  dial net = inr udpConn ->
  (forall err,
      trip net = QuicDialFailed err ->
      offerNew c net = (Err err, handshakeCalls c ++ [UdpClose udpConn], c))
  /\ (forall q err,
        trip net = ExchangeFailed q err ->
        offerNew c net =
          (Err err,
           handshakeCalls c ++ [QuicCloseWithError q 0 ""; UdpClose udpConn], c)).
Proof.
  intros Hdial. split; [intros err Htrip | intros q err Htrip];
    unfold offerNew; rewrite Hdial, Htrip; reflexivity.
Qed.

(** The client's window is the configured one. *)
Lemma NewClient_cwnd (options : ClientOptions) :
  cwnd (NewClient options) = CWND options.
Proof. reflexivity. Qed.

(** The nil connection of [offerNew] is never dereferenced: a response
    only arrives over a connection the [Dial] closure has stored. *)
Lemma offerNew_no_panic c net : fst (fst (offerNew c net)) <> Panic.
Proof.
  unfold offerNew.
  destruct (dial net) as [err | udpConn]; [discriminate |].
  destruct (trip net) as [err | q err | q response]; cbn [RoundTrip Dial fst];
    try discriminate.
  destruct (negb _); discriminate.
Qed.

(** The negotiated tx in the words of the specification: the smaller of
    the server's rx and the client's send rate, and the send rate when the
    server's rx is 0. *)
Lemma actualTx_min c (authResponse : protocol.AuthResponse) :
  actualTx c authResponse =
    if (protocol.RespRx authResponse =? 0)%N then sendBPS c
    else N.min (protocol.RespRx authResponse) (sendBPS c).
Proof.
  unfold actualTx.
  destruct (N.eqb_spec (protocol.RespRx authResponse) 0); cbn [orb]; [reflexivity |].
  destruct (N.ltb_spec (sendBPS c) (protocol.RespRx authResponse)); lia.
Qed.

(** C1: after a round trip answered with [StatusAuthOK], with the
    negotiated tx being the server's rx, replaced by the client's send rate
    when that rx is 0 or larger than the send rate, [offerNew] installs one
    controller on the dialed connection: BBR with the client's [cwnd] when
    the response has [RxAuto] or the negotiated tx is 0, and Brutal at the
    negotiated tx otherwise. *)
Theorem client_policy c net udpConn q response :
  dial net = inr udpConn ->
  trip net = Responded q response ->
  StatusCode response = protocol.StatusAuthOK ->
  let authResponse := AuthResponseFromHeader (RespHeader response) in
  let rx := protocol.RespRx authResponse in
  let tx := if (rx =? 0)%N || (sendBPS c <? rx)%N then sendBPS c else rx in
  installs (snd (fst (offerNew c net))) =
    [(q, if protocol.RxAuto authResponse || (tx =? 0)%N
         then BBR (cwnd c)
         else NewBrutalSender tx (brutalDebug c))]
  /\ tx = (if (rx =? 0)%N then sendBPS c else N.min rx (sendBPS c)).
Proof.
  intros Hdial Htrip Hstatus authResponse rx tx.
  rewrite (offerNew_authenticated c net udpConn q response Hdial Htrip Hstatus).
  cbn [fst snd]. fold authResponse.
  change (actualTx c authResponse) with tx.
  split; [| apply actualTx_min].
  rewrite !client_installs_app.
  destruct (protocol.RxAuto authResponse); cbn [negb andb orb].
  - destruct (negb (udpDisabled c)); reflexivity.
  - destruct (N.eqb_spec tx 0) as [Hz | Hnz].
    + rewrite Hz. destruct (negb (udpDisabled c)); reflexivity.
    + assert (Hpos : (0 <? tx)%N = true) by (apply N.ltb_lt; lia).
      rewrite Hpos. destruct (negb (udpDisabled c)); reflexivity.
Qed.

(** C3 (as amended): after a round trip answered with [StatusAuthOK],
    [offerNew] starts the receive loop exactly when UDP is not disabled
    locally, whatever the auth response says; a response that disables UDP
    is recorded in the connection's [udpDisabled]. *)
Theorem receive_loop_local c net udpConn q response :
  dial net = inr udpConn ->
  trip net = Responded q response ->
  StatusCode response = protocol.StatusAuthOK ->
  let authResponse := AuthResponseFromHeader (RespHeader response) in
  let tr := snd (fst (offerNew c net)) in
  (loops tr = [q] <-> udpDisabled c = false)
  /\ (udpDisabled c = true -> loops tr = [])
  /\ exists conn,
       fst (fst (offerNew c net)) = Ok conn
       /\ conn_udpDisabled conn =
            udpDisabled c || negb (protocol.UDPEnabled authResponse).
Proof.
  intros Hdial Htrip Hstatus authResponse tr. subst tr.
  rewrite (offerNew_authenticated c net udpConn q response Hdial Htrip Hstatus).
  cbn [fst snd]. fold authResponse.
  rewrite !client_loops_app.
  split; [| split].
  - destruct (negb _ && _), (udpDisabled c); cbn; split; congruence.
  - intros ->. destruct (negb _ && _); reflexivity.
  - eexists. split; reflexivity.
Qed.

(** C6: when the round trip is answered with a status other than
    [StatusAuthOK], [offerNew] closes the QUIC connection with error code
    0, then the UDP socket, and returns the authentication-failed error
    with that status; no controller is installed and the client, and so
    its stored connection, is unchanged. *)
Theorem auth_failure_closes c net udpConn q response :
  dial net = inr udpConn ->
  trip net = Responded q response ->
  StatusCode response <> protocol.StatusAuthOK ->
  offerNew c net =
    (Err (E_New [MStr "authentication failed, status code: ";
                 MInt (StatusCode response)]),
     handshakeCalls c ++ [QuicCloseWithError q 0 ""; UdpClose udpConn],
     c)
  /\ conn (snd (offerNew c net)) = conn c
  /\ installs (snd (fst (offerNew c net))) = []
  /\ loops (snd (fst (offerNew c net))) = [].
Proof.
  intros Hdial Htrip Hstatus.
  rewrite (offerNew_rejected c net udpConn q response Hdial Htrip Hstatus).
  cbn [fst snd]. auto.
Qed.

(** Once the response is read every read passes through. *)
Lemma runReads_passThrough (reads : list (nat * StreamAnswers)) :
  forall x : clientConn,
    responseRead x = true -> runReads x reads = (map passThrough reads, x).
Proof.
  induction reads as [| [len a] rest IH]; intros x Hr; cbn [runReads map].
  - reflexivity.
  - unfold Read. rewrite Hr. rewrite (IH x Hr). reflexivity.
Qed.

(** C8: on a client stream conn whose response is not read yet, a read
    that meets an OK response latches [responseRead] and returns what the
    stream's read returns, and every later read only passes through to the
    stream; a read that meets an error response returns 0 bytes and the
    remote error with the server's message, after the response frame alone
    was read, and leaves [responseRead] false. *)
Theorem first_read (x : clientConn) (len : nat) (a : StreamAnswers) :
  responseRead x = false ->
  (forall message,
      onReadTCPResponse a = inr (true, message) ->
      Read x len a =
        ((fst (onRead a), WrapQUIC (snd (onRead a))), markResponseRead x,
         [ReadTCPResponse; StreamRead len])
      /\ responseRead (snd (fst (Read x len a))) = true
      /\ forall reads,
           runReads (snd (fst (Read x len a))) reads
           = (map passThrough reads, snd (fst (Read x len a))))
  /\ (forall message,
        onReadTCPResponse a = inr (false, message) ->
        Read x len a =
          ((0, Some (E_New [MStr "remote error: "; MStr message])), x,
           [ReadTCPResponse])
        /\ responseRead (snd (fst (Read x len a))) = false).
Proof.
  intros Hr. split; intros message Hresp; unfold Read; rewrite Hr, Hresp; cbn [negb fst snd].
  - split; [reflexivity |]. split; [reflexivity |].
    intros reads. apply runReads_passThrough. reflexivity.
  - split; [reflexivity | exact Hr].
Qed.

(** A response frame that cannot be read leaves the conn as it was. *)
Lemma read_unreadable_response (x : clientConn) (len : nat) (a : StreamAnswers) e :
  responseRead x = false ->
  onReadTCPResponse a = inl e ->
  Read x len a = ((0, WrapQUIC (Some e)), x, [ReadTCPResponse]).
Proof. intros Hr Hresp. unfold Read. rewrite Hr, Hresp. reflexivity. Qed.

Lemma usable_Some (o : option clientQUICConnection) k :
  usable o = Some k -> o = Some k /\ active k = true.
Proof.
  unfold usable. destruct o as [k0 |]; [| discriminate].
  destruct (active k0) eqn:Ha; [| discriminate].
  intros [= <-]. auto.
Qed.

(** The connection [offer] returns is the one the client stores. *)
Lemma offer_stored c net k tr c1 :
  offer c net = (Ok k, tr, c1) -> conn c1 = Some k.
Proof.
  unfold offer. destruct (usable (conn c)) as [k0 |] eqn:Hu.
  - intros [= <- _ <-]. apply usable_Some in Hu. tauto.
  - unfold offerNew.
    destruct (dial net) as [err | udpConn]; [discriminate |].
    destruct (trip net) as [err | q err | q response]; cbn [RoundTrip Dial fst];
      try discriminate.
    destruct (negb _); [discriminate |].
    intros [= <- _ <-]. reflexivity.
Qed.

(** The connection [offerNew] builds has no session yet. *)
Lemma sessionsBelow_new c net k :
  fst (fst (offerNew c net)) = Ok k -> sessionsBelow k.
Proof.
  unfold offerNew.
  destruct (dial net) as [err | udpConn]; [discriminate |].
  destruct (trip net) as [err | q err | q response]; cbn [RoundTrip Dial fst];
    try discriminate.
  destruct (negb _); [discriminate |].
  cbn [fst]. intros [= <-] id pc. cbn [udpConnMap].
  rewrite lookup_empty. discriminate.
Qed.

(** Registering under the counter keeps the ids below the counter until
    the counter wraps. *)
Lemma sessionsBelow_register k :
  sessionsBelow k ->
  (udpSessionID k + 1 < 2 ^ 32)%N ->
  sessionsBelow
    (registerSession k {| pc_quicConn := quicConn k; sessionID := udpSessionID k |}).
Proof.
  intros Hbelow Hroom id pc. unfold registerSession.
  cbn [udpConnMap udpSessionID sessionID]. unfold uint32.
  rewrite N.mod_small by exact Hroom.
  destruct (decide (udpSessionID k = id)) as [<- | Hne].
  - intros _. lia.
  - rewrite lookup_insert_ne by exact Hne. intros Hl.
    specialize (Hbelow id pc Hl). lia.
Qed.

Lemma sessionsBelow_remove k id :
  sessionsBelow k -> sessionsBelow (removeSession k id).
Proof.
  intros Hbelow id' pc. unfold removeSession. cbn [udpConnMap udpSessionID].
  intros Hl. apply lookup_delete_Some in Hl as [_ Hl]. exact (Hbelow id' pc Hl).
Qed.

(** Closing a session that was registered under an unused id gives the
    table back. *)
Lemma removeSession_register k :
  udpConnMap k !! udpSessionID k = None ->
  udpConnMap
    (removeSession
       (registerSession k {| pc_quicConn := quicConn k; sessionID := udpSessionID k |})
       (udpSessionID k))
  = udpConnMap k.
Proof.
  intros Hfree. unfold removeSession, registerSession. cbn [udpConnMap sessionID].
  rewrite delete_insert_eq. apply delete_id. exact Hfree.
Qed.

(** [offer] on a usable connection makes no call at all. *)
Lemma offer_reuses c net k :
  usable (conn c) = Some k -> offer c net = (Ok k, [], c).
Proof. intros Hu. unfold offer. rewrite Hu. reflexivity. Qed.

(** [offer] without a usable connection is [offerNew]. *)
Lemma offer_redials c net :
  usable (conn c) = None -> offer c net = offerNew c net.
Proof. intros Hu. unfold offer. rewrite Hu. reflexivity. Qed.

(** A connection closed for the first time is not usable any more, and
    closing it again makes no call. *)
Lemma client_closeWithError_once k e1 e2 :
  closeOnce k = false ->
  active (fst (closeWithError k e1)) = false
  /\ snd (closeWithError k e1) = [QuicCloseWithError (quicConn k) 0 ""]
  /\ snd (closeWithError (fst (closeWithError k e1)) e2) = [].
Proof.
  intros Hc. unfold closeWithError, active. rewrite Hc. cbn [fst snd closeOnce].
  destruct (quicContextDone k); auto.
Qed.


End ClientProperties.

(** * The model at work *)

(** A service built by [NewService] has window 0 whatever [CWND] the
    options carry. *)
Lemma NewService_cwnd (U : Type) (options : server.ServiceOptions) :
  server.cwnd (@server.NewService U options) = 0.
Proof. reflexivity. Qed.

(** Scenario 1 of the specification on the client: Brutal at 50 Mbps. *)
Lemma client_policy_witness :
  client.dial (example.answering 233 (example.granted true)) = inr example.u1
  /\ client.trip (example.answering 233 (example.granted true))
     = client.Responded example.q1 (example.grantedHeaders true)
  /\ client.StatusCode (example.grantedHeaders true) = protocol.StatusAuthOK
  /\ client.installs
       (snd (fst (client.offerNew (example.cli false)
                    (example.answering 233 (example.granted true)))))
     = [(example.q1, NewBrutalSender 50000000 false)].
Proof.
  split; [reflexivity |]. split; [reflexivity |]. split; [reflexivity |].
  exact (proj1 (client_policy (example.cli false)
                  (example.answering 233 (example.granted true))
                  example.u1 example.q1 (example.grantedHeaders true)
                  eq_refl eq_refl eq_refl)).
Defined.



(** C3, counterexample: UDP is enabled locally and the auth response
    disables it; the receive loop is started all the same. *)
Lemma receive_loop_peer_disabled :
  ~ client.specifiedLoopRule (example.cli false)
      (example.answering 233 (example.granted false)).
Proof.
  unfold client.specifiedLoopRule. cbn.
  intros Hrule. destruct (Hrule eq_refl) as [Hstarted _].
  destruct (Hstarted eq_refl) as [_ Hpeer]. discriminate Hpeer.
Defined.

(** The same handshake through the amended rule. *)
Lemma receive_loop_local_witness :
  client.dial (example.answering 233 (example.granted false)) = inr example.u1
  /\ client.trip (example.answering 233 (example.granted false))
     = client.Responded example.q1 (example.grantedHeaders false)
  /\ client.StatusCode (example.grantedHeaders false) = protocol.StatusAuthOK
  /\ client.loops
       (snd (fst (client.offerNew (example.cli false)
                    (example.answering 233 (example.granted false)))))
     = [example.q1].
Proof.
  split; [reflexivity |]. split; [reflexivity |]. split; [reflexivity |].
  apply (proj1 (receive_loop_local (example.cli false)
                  (example.answering 233 (example.granted false))
                  example.u1 example.q1 (example.grantedHeaders false)
                  eq_refl eq_refl eq_refl)).
  reflexivity.
Defined.

(** Scenario 3 of the specification on the server: a wrong password. *)
Lemma masquerade_property_witness :
  server.authenticated (example.session false) = false
  /\ server.userMap (server.service (example.session false)) !! "q" = None
  /\ snd (server.ServeHTTP (example.session false) (example.authPOST "q" 50000000))
     = [server.MasqueradeServeHTTP (example.authPOST "q" 50000000)]
  /\ server.authenticated
       (fst (server.ServeHTTP (example.session false) (example.authPOST "q" 50000000)))
     = false.
Proof.
  split; [reflexivity |]. split; [reflexivity |].
  pose proof (masquerade_property (example.session false)
                (example.authPOST "q" 50000000) eq_refl (or_intror eq_refl))
    as [Htrace [_ [Hflag _]]].
  split; [exact Htrace | exact Hflag].
Defined.

(** Four requests on one session: one controller, and the replay of the
    auth POST changes nothing. *)
Lemma controller_installed_once_witness :
  length (server.installs
            (snd (server.runSession (example.session false) example.fourRequests)))
  = 1%nat
  /\ server.authenticated example.authedSession = true
  /\ server.isAuthURL (example.authPOST "q" 50000000) = true
  /\ server.ServeHTTP example.authedSession (example.authPOST "q" 50000000)
     = (example.authedSession,
        [server.AuthResponseToHeader (server.sessionAuthResponse example.authedSession);
         server.WriteHeader protocol.StatusAuthOK]).
Proof.
  destruct (@controller_installed_once example.externals nat _)
    as [Hrun [_ Hreplay]].
  split.
  - exact (Hrun (example.svc false) "198.51.100.7:4433"%string example.fourRequests).
  - split; [reflexivity |]. split; [reflexivity |].
    exact (proj1 (Hreplay example.authedSession (example.authPOST "q" 50000000)
                    eq_refl eq_refl)).
Defined.

(** Scenario 3 of the specification on the client: status 404. *)
Lemma auth_failure_closes_witness :
  client.dial (example.answering 404 example.noResponse) = inr example.u1
  /\ client.trip (example.answering 404 example.noResponse)
     = client.Responded example.q1 example.notFound
  /\ client.StatusCode example.notFound <> protocol.StatusAuthOK
  /\ client.offerNew (example.cli false) (example.answering 404 example.noResponse)
     = (client.Err (E_New [MStr "authentication failed, status code: "; MInt 404]),
        [client.DialContext;
         client.CreateTransport false;
         client.RoundTripPOST "hysteria" "/auth"
           {| protocol.Auth := "p"; protocol.Rx := 50000000 |};
         client.QuicCloseWithError example.q1 0 "";
         client.UdpClose example.u1],
        example.cli false).
Proof.
  assert (Hstatus : client.StatusCode example.notFound <> protocol.StatusAuthOK)
    by discriminate.
  split; [reflexivity |]. split; [reflexivity |]. split; [exact Hstatus |].
  exact (proj1 (auth_failure_closes (example.cli false)
                  (example.answering 404 example.noResponse)
                  example.u1 example.q1 example.notFound
                  eq_refl eq_refl Hstatus)).
Defined.


(** Scenario 4 of the specification, and a refused destination. *)
Lemma first_read_witness :
  client.responseRead example.destinationConn = false
  /\ client.Read example.destinationConn 5 example.okStream
     = ((5, None), client.markResponseRead example.destinationConn,
        [ReadTCPResponse; StreamRead 5])
  /\ client.Read example.destinationConn 5 example.refusedStream
     = ((0, Some (E_New [MStr "remote error: "; MStr "connection refused"])),
        example.destinationConn, [ReadTCPResponse]).
Proof.
  split; [reflexivity |].
  destruct (first_read example.destinationConn 5 example.okStream eq_refl)
    as [Hok _].
  destruct (first_read example.destinationConn 5 example.refusedStream eq_refl)
    as [_ Hrefused].
  split.
  - exact (proj1 (Hok ""%string eq_refl)).
  - exact (proj1 (Hrefused "connection refused"%string eq_refl)).
Defined.


(** A handler that writes, then signals success, then failure: no
    second response frame, and the first one carries the payload. *)
Lemma single_response_frame_witness :
  server.responseWritten {| server.responseWritten := false |} = false
  /\ (responseFrames
        (snd (@server.runConn example.externals {| server.responseWritten := false |}
                [(server.CallWrite [Byte.x68; Byte.x69], example.okStream);
                 (server.CallHandshakeSuccess, example.okStream);
                 (server.CallHandshakeFailure "late", example.okStream)]))
      <= 1)%nat
  /\ fst (fst (@server.serverConn_Write example.externals
                 {| server.responseWritten := false |} [Byte.x68; Byte.x69]
                 example.okStream))
     = (2, None)
  /\ server.HandshakeFailure {| server.responseWritten := true |} "late" example.okStream
     = (Some os_ErrClosed, {| server.responseWritten := true |}, []).
Proof.
  destruct (@single_response_frame example.externals) as [Hmost [Hfirst Hlater]].
  split; [reflexivity |]. split; [| split].
  - exact (proj1 (Hmost {| server.responseWritten := false |}
                    [(server.CallWrite [Byte.x68; Byte.x69], example.okStream);
                     (server.CallHandshakeSuccess, example.okStream);
                     (server.CallHandshakeFailure "late", example.okStream)])).
  - exact (proj2 (proj2 (proj2 (proj2
             (Hfirst {| server.responseWritten := false |} example.okStream
                ""%string [Byte.x68; Byte.x69] eq_refl)))) eq_refl).
  - exact (proj2 (Hlater {| server.responseWritten := true |} example.okStream
                    "late"%string eq_refl)).
Defined.

(** * More properties of the server *)

(** Closes a goal whose hypothesis [H] says that an event is among
    finitely many others, all different from it. *)
Ltac not_listed H :=
  repeat (apply elem_of_cons in H as [H | H]; [discriminate H |]);
  apply elem_of_nil in H; contradiction.

Section ServerLifeProperties.

Import server.

Context `{Externals} {U : Type} `{Inhabited U}.

Implicit Types (s : serverSession U) (r : Request) (svc : Service U).

Lemma UpdateUsers_loop_built (userList : list U) :
  forall (i : nat) (passwordList : list string) (m : gmap string U),
    (i + length userList <= length passwordList)%nat ->
    UpdateUsers_loop i userList passwordList m
    = Some (list_to_map (reverse (zip (drop i passwordList) userList)) ∪ m).
Proof.
  induction userList as [| user rest IH]; intros i passwordList m Hlen;
    cbn [UpdateUsers_loop].
  - rewrite zip_with_nil_r. cbn. rewrite (left_id ∅ (∪)). reflexivity.
  - cbn [length] in Hlen.
    destruct (passwordList !! i) as [password |] eqn:Hi.
    + rewrite (IH (S i) passwordList _) by lia.
      rewrite (drop_S passwordList password i Hi). cbn [zip_with].
      rewrite reverse_cons, list_to_map_app. cbn [list_to_map foldr fst snd curry].
      rewrite insert_empty, <- (assoc_L (∪)), <- insert_union_singleton_l.
      reflexivity.
    + apply lookup_ge_None in Hi. lia.
Qed.

Lemma UpdateUsers_loop_short (userList : list U) :
  forall (i : nat) (passwordList : list string) (m : gmap string U),
    (i <= length passwordList)%nat ->
    (length passwordList < i + length userList)%nat ->
    UpdateUsers_loop i userList passwordList m = None.
Proof.
  induction userList as [| user rest IH]; intros i passwordList m Hi Hlen;
    cbn [UpdateUsers_loop length] in *.
  - lia.
  - destruct (passwordList !! i) as [password |] eqn:Hp; [| reflexivity].
    apply lookup_lt_Some in Hp. apply IH; lia.
Qed.

(** [UpdateUsers] with enough passwords, and with too few. *)
Lemma UpdateUsers_built svc (userList : list U) (passwordList : list string) :
  ((length userList <= length passwordList)%nat ->
   UpdateUsers svc userList passwordList
   = Some (set_userMap svc (list_to_map (reverse (zip passwordList userList)))))
  /\ ((length passwordList < length userList)%nat ->
      UpdateUsers svc userList passwordList = None).
Proof.
  unfold UpdateUsers. split; intros Hlen.
  - rewrite (UpdateUsers_loop_built userList 0 passwordList ∅) by (cbn; lia).
    rewrite drop_0, (right_id ∅ (∪)). reflexivity.
  - rewrite (UpdateUsers_loop_short userList 0 passwordList ∅) by (cbn; lia).
    reflexivity.
Qed.

(** X1: [UpdateUsers] replaces the user map by the pairs of
    [passwordList] and [userList] taken position by position, a later
    pair overriding an earlier one with the same password, passwords
    beyond the users being ignored and the previous users being dropped;
    with fewer passwords than users it ends in the index-out-of-range
    panic. *)
Theorem UpdateUsers_pairs svc (userList : list U) (passwordList : list string) :
  ((length userList <= length passwordList)%nat ->
   UpdateUsers svc userList passwordList
   = Some (set_userMap svc (list_to_map (reverse (zip passwordList userList)))))
  /\ ((length passwordList < length userList)%nat ->
      UpdateUsers svc userList passwordList = None).
Proof.
  unfold UpdateUsers. split; intros Hlen.
  - rewrite (UpdateUsers_loop_built userList 0 passwordList ∅) by (cbn; lia).
    rewrite drop_0, (right_id ∅ (∪)). reflexivity.
  - rewrite (UpdateUsers_loop_short userList 0 passwordList ∅) by (cbn; lia).
    reflexivity.
Qed.

(** X2: after [UpdateUsers], a session that is not authenticated accepts
    an auth POST exactly when its password stands in [passwordList] at a
    position that has a user, and the user it authenticates as is one
    listed at a position of that password. *)
Theorem UpdateUsers_then_auth s (userList : list U) (passwordList : list string)
    svc r :
  authenticated s = false ->
  UpdateUsers (service s) userList passwordList = Some svc ->
  isAuthURL r = true ->
  let password := protocol.Auth (AuthRequestFromHeader (ReqHeader r)) in
  let s' := fst (ServeHTTP (withService s svc) r) in
  (authenticated s' = true
   <-> exists i, (i < length userList)%nat /\ passwordList !! i = Some password)
  /\ (authenticated s' = true ->
      exists i, passwordList !! i = Some password
                /\ userList !! i = Some (authUser s')).
Proof.
  intros Hauth Hupd Hurl password s'.
  assert (Hlen : (length userList <= length passwordList)%nat).
  { destruct (Nat.le_gt_cases (length userList) (length passwordList)) as [Hle | Hgt];
      [exact Hle |].
    rewrite (proj2 (UpdateUsers_built (service s) userList passwordList) Hgt) in Hupd.
    discriminate. }
  rewrite (proj1 (UpdateUsers_built (service s) userList passwordList) Hlen) in Hupd.
  injection Hupd as <-.
  subst s'. unfold ServeHTTP. rewrite Hurl.
  cbn [withService authenticated service set_userMap userMap]. rewrite Hauth.
  fold password.
  destruct (list_to_map (reverse (zip passwordList userList)) !! password)
    as [user |] eqn:Hl;
    cbn [fst authenticated authUser setAuthenticated withService].
  - apply elem_of_list_to_map_2 in Hl. rewrite elem_of_reverse in Hl.
    apply list_elem_of_lookup in Hl as [i Hi].
    apply lookup_zip_with_Some in Hi as (p & u & Heq & Hp & Hu).
    injection Heq as -> ->.
    split; [split; [intros _ | reflexivity] | intros _].
    + exists i. split; [apply (lookup_lt_Some _ _ _ Hu) | exact Hp].
    + exists i. split; assumption.
  - rewrite Hauth. split; [split; [discriminate |] | discriminate].
    intros (i & Hi & Hp).
    destruct (lookup_lt_is_Some_2 userList i Hi) as [u Hu].
    apply not_elem_of_list_to_map in Hl. exfalso. apply Hl.
    apply list_elem_of_fmap. exists (password, u). split; [reflexivity |].
    rewrite elem_of_reverse. apply list_elem_of_lookup. exists i.
    apply lookup_zip_with_Some. exists password, u. auto.
Qed.

(** One activity on an authenticated session leaves it authenticated,
    as the same user. *)
Lemma activityStep_authenticated s (a : Activity) :
  authenticated s = true ->
  authenticated (fst (activityStep s a)) = true
  /\ authUser (fst (activityStep s a)) = authUser s.
Proof.
  intros Hauth. destruct a as [r | frameType err | userList passwordList];
    cbn [activityStep].
  - unfold ServeHTTP. rewrite Hauth. destruct (isAuthURL r); cbn [fst]; auto.
  - cbn [fst]. auto.
  - destruct (UpdateUsers _ _ _); cbn [fst withService authenticated authUser]; auto.
Qed.

Lemma runActivities_authenticated (acts : list Activity) : forall s,
  authenticated s = true ->
  authenticated (fst (runActivities s acts)) = true
  /\ authUser (fst (runActivities s acts)) = authUser s.
Proof.
  induction acts as [| a rest IH]; intros s Hauth; cbn [runActivities].
  - cbn [fst]. auto.
  - destruct (activityStep_authenticated s a Hauth) as [Ha Hu].
    destruct (activityStep s a) as [s1 tr1]. cbn [fst] in Ha, Hu.
    destruct (IH s1 Ha) as [Ha2 Hu2].
    destruct (runActivities s1 rest) as [s2 tr2]. cbn [fst] in *.
    split; [exact Ha2 | congruence].
Qed.

(** X3: once a session is authenticated it stays authenticated as the
    same user through every later request, stream and [UpdateUsers], also
    when the new user map no longer has that user. *)
Theorem authenticated_user_kept (acts : list Activity) : forall s,
  authenticated s = true ->
  authenticated (fst (runActivities s acts)) = true
  /\ authUser (fst (runActivities s acts)) = authUser s.
Proof.
  induction acts as [| a rest IH]; intros s Hauth; cbn [runActivities].
  - cbn [fst]. auto.
  - destruct (activityStep_authenticated s a Hauth) as [Ha Hu].
    destruct (activityStep s a) as [s1 tr1]. cbn [fst] in Ha, Hu.
    destruct (IH s1 Ha) as [Ha2 Hu2].
    destruct (runActivities s1 rest) as [s2 tr2]. cbn [fst] in *.
    split; [exact Ha2 | congruence].
Qed.

(** One activity that leaves a session unauthenticated called the
    masquerade handler for its request, if it is one, and nothing else. *)
Lemma activityStep_unauthenticated s (a : Activity) :
  authenticated s = false ->
  authenticated (fst (activityStep s a)) = false ->
  snd (activityStep s a) = MasqueradeServeHTTP <$> requestsOf [a].
Proof.
  intros Hauth. destruct a as [r | frameType err | userList passwordList];
    cbn [activityStep requestsOf omap requestOf].
  - unfold ServeHTTP. rewrite Hauth.
    destruct (isAuthURL r); [| reflexivity].
    destruct (userMap (service s) !! _); [cbn; discriminate | reflexivity].
  - intros _. unfold handleStream0. rewrite Hauth. reflexivity.
  - intros _. destruct (UpdateUsers _ _ _); reflexivity.
Qed.

Lemma runActivities_unauthenticated (acts : list Activity) : forall s,
  authenticated s = false ->
  authenticated (fst (runActivities s acts)) = false ->
  snd (runActivities s acts) = MasqueradeServeHTTP <$> requestsOf acts.
Proof.
  induction acts as [| a rest IH]; intros s Hauth Hend; cbn [runActivities] in *.
  - reflexivity.
  - pose proof (activityStep_unauthenticated s a Hauth) as Hstep.
    destruct (activityStep s a) as [s1 tr1] eqn:Hs1. cbn [fst snd] in Hstep.
    destruct (authenticated s1) eqn:Hauth1.
    + pose proof (runActivities_authenticated rest s1 Hauth1) as [Hkept _].
      destruct (runActivities s1 rest) as [s2 tr2]. cbn [fst] in *. congruence.
    + specialize (IH s1 Hauth1).
      destruct (runActivities s1 rest) as [s2 tr2]. cbn [fst snd] in *.
      rewrite (Hstep eq_refl), (IH Hend).
      change (a :: rest) with ([a] ++ rest).
      unfold requestsOf. rewrite omap_app, fmap_app. reflexivity.
Qed.

(** X4: on a connection whose session never becomes authenticated, all
    the server does is hand each request to the masquerade handler, in
    order, and close the connection with error code 0 at the end: no
    controller, no auth response, no goroutine. *)
Theorem unauthenticated_only_masquerades svc (remote : Socksaddr)
    (acts : list Activity) :
  authenticated (fst (handleConnection svc remote acts)) = false ->
  snd (handleConnection svc remote acts)
  = (MasqueradeServeHTTP <$> requestsOf acts) ++ [QuicCloseWithError 0 ""].
Proof.
  unfold handleConnection.
  pose proof (runActivities_unauthenticated acts (newSession svc remote) eq_refl)
    as Hrun.
  destruct (runActivities (newSession svc remote) acts) as [s tr].
  cbn [fst snd] in *. intros Hend. rewrite (Hrun Hend). reflexivity.
Qed.

(** The stream handler is only started by an authenticated session. *)
Lemma activityStep_hijack s (a : Activity) :
  Go StreamHandler ∈ snd (activityStep s a) -> authenticated s = true.
Proof.
  destruct a as [r | frameType err | userList passwordList]; cbn [activityStep snd].
  - unfold ServeHTTP.
    destruct (isAuthURL r); [| intros Hin; not_listed Hin].
    destruct (authenticated s); [reflexivity |].
    destruct (userMap (service s) !! _); [| intros Hin; not_listed Hin].
    cbn [snd].
    destruct (negb _ && _), (ctx_Done _), (negb (udpDisabled _));
      intros Hin; cbn in Hin; not_listed Hin.
  - unfold handleStream0.
    destruct (authenticated s); [reflexivity |]. cbn. intros Hin. not_listed Hin.
  - destruct (UpdateUsers _ _ _); intros Hin; not_listed Hin.
Qed.

(** The activity that authenticates a session writes [StatusAuthOK]. *)
Lemma activityStep_authenticates s (a : Activity) :
  authenticated s = false ->
  authenticated (fst (activityStep s a)) = true ->
  WriteHeader protocol.StatusAuthOK ∈ snd (activityStep s a).
Proof.
  intros Hauth. destruct a as [r | frameType err | userList passwordList];
    cbn [activityStep fst snd].
  - unfold ServeHTTP. rewrite Hauth.
    destruct (isAuthURL r); [| cbn; congruence].
    destruct (userMap (service s) !! _); [| cbn; congruence].
    intros _. cbn [snd].
    destruct (negb _ && _); cbn;
      do 2 apply list_elem_of_further; apply list_elem_of_here.
  - congruence.
  - destruct (UpdateUsers _ _ _); cbn; congruence.
Qed.

Lemma runActivities_hijack (acts : list Activity) : forall s pre post,
  snd (runActivities s acts) = pre ++ Go StreamHandler :: post ->
  authenticated s = true \/ WriteHeader protocol.StatusAuthOK ∈ pre.
Proof.
  induction acts as [| a rest IH]; intros s pre post; cbn [runActivities].
  - cbn. intros Hnil. destruct pre; discriminate.
  - pose proof (activityStep_hijack s a) as Hhij.
    pose proof (activityStep_authenticates s a) as Hok.
    destruct (activityStep s a) as [s1 tr1]. cbn [fst snd] in Hhij, Hok.
    specialize (IH s1).
    destruct (runActivities s1 rest) as [s2 tr2]. cbn [snd] in *.
    intros Hsplit.
    destruct (authenticated s) eqn:Hauth; [left; reflexivity | right].
    apply app_eq_inv in Hsplit as [(k & Htr1 & Hpost) | (k & Hpre & Htr2)].
    + destruct k as [| e k].
      * rewrite app_nil_r in Htr1. subst tr1. cbn in Hpost.
        destruct (IH [] post (eq_sym Hpost)) as [Hauth1 | Hin].
        -- apply Hok; [reflexivity | exact Hauth1].
        -- apply elem_of_nil in Hin. contradiction.
      * injection Hpost as <- _.
        assert (Hmem : Go StreamHandler ∈ tr1).
        { subst tr1. apply elem_of_app. right. apply list_elem_of_here. }
        specialize (Hhij Hmem). discriminate.
    + subst pre. apply elem_of_app.
      destruct (IH k post Htr2) as [Hauth1 | Hin].
      * left. apply Hok; [reflexivity | exact Hauth1].
      * right. exact Hin.
Qed.

(** X5: on any connection, whenever the stream handler is started, the
    session has written [StatusAuthOK] before: no stream is taken for TCP
    proxying ahead of a successful auth request. *)
Theorem hijack_after_auth svc (remote : Socksaddr) (acts : list Activity)
    (pre post : list Event) :
  snd (handleConnection svc remote acts) = pre ++ Go StreamHandler :: post ->
  WriteHeader protocol.StatusAuthOK ∈ pre.
Proof.
  unfold handleConnection.
  pose proof (runActivities_hijack acts (newSession svc remote)) as Hrun.
  destruct (runActivities (newSession svc remote) acts) as [s tr].
  cbn [snd] in *. intros Hsplit.
  apply app_eq_inv in Hsplit as [(k & Htr & Hlast) | (k & Hpre & Hlast)].
  - destruct k as [| e k]; [discriminate |].
    injection Hlast as <- _.
    destruct (Hrun pre k Htr) as [Hauth | Hin]; [discriminate | exact Hin].
  - destruct k as [| e k]; [discriminate |].
    injection Hlast as _ Hk. destruct k; discriminate.
Qed.

(** X6: whatever the request and the state of the session, a Brutal
    sender the server installs has a rate above 0, at most the rate the
    client asked for and, when the service has a [sendBPS], at most that;
    and none is installed when the service ignores the client's
    bandwidth. *)
Theorem server_brutal_rate s r (bps : N) (debug : bool) :
  NewBrutalSender bps debug ∈ installs (snd (ServeHTTP s r)) ->
  (0 < bps)%N
  /\ (bps <= protocol.Rx (AuthRequestFromHeader (ReqHeader r)))%N
  /\ ((0 < sendBPS (service s))%N -> (bps <= sendBPS (service s))%N)
  /\ ignoreClientBandwidth (service s) = false.
Proof.
  destruct (isAuthURL r) eqn:Hurl;
    [| rewrite (ServeHTTP_other_url s r Hurl); cbn; intros Hin; not_listed Hin].
  destruct (authenticated s) eqn:Hauth;
    [rewrite (ServeHTTP_replay s r Hauth Hurl); cbn; intros Hin; not_listed Hin |].
  destruct (userMap (service s) !! protocol.Auth (AuthRequestFromHeader (ReqHeader r)))
    as [user |] eqn:Huser;
    [| rewrite (ServeHTTP_unknown s r Hauth Hurl Huser); cbn; intros Hin;
       not_listed Hin].
  rewrite (proj1 (accept_observed s r user Hauth Hurl Huser)).
  set (request := AuthRequestFromHeader (ReqHeader r)).
  destruct (ignoreClientBandwidth (service s)); cbn [negb andb];
    [intros Hin; unfold BBR in Hin; not_listed Hin |].
  destruct (N.ltb_spec 0 (protocol.Rx request)) as [Hpos | Hzero];
    [| intros Hin; unfold BBR in Hin; not_listed Hin].
  intros Hin. apply list_elem_of_singleton in Hin. injection Hin as -> _.
  unfold smallerCap.
  destruct (N.eqb_spec (sendBPS (service s)) 0) as [Hz | Hnz];
    repeat split; lia.
Qed.

Lemma closeAll_done (errs : list Error) : forall s,
  connDone s = true -> closeAll s errs = (s, []).
Proof.
  induction errs as [| err rest IH]; intros s Hdone; cbn [closeAll].
  - reflexivity.
  - unfold closeWithError. rewrite Hdone. rewrite (IH s Hdone). reflexivity.
Qed.

(** X7: however often [closeWithError] is called on a session, the QUIC
    connection is closed once, with error code 0; the error kept is the
    one of the first call, and who the session is authenticated as is not
    touched. *)
Theorem closeWithError_latches s (err : Error) (later : list Error) :
  connDone s = false ->
  snd (closeAll s (err :: later)) = [QuicCloseWithError 0 ""]
  /\ connErr (fst (closeAll s (err :: later))) = Some err
  /\ connDone (fst (closeAll s (err :: later))) = true
  /\ authenticated (fst (closeAll s (err :: later))) = authenticated s
  /\ authUser (fst (closeAll s (err :: later))) = authUser s.
Proof.
  intros Hopen. cbn [closeAll]. unfold closeWithError. rewrite Hopen.
  rewrite closeAll_done by reflexivity. cbn. repeat split; reflexivity.
Qed.

End ServerLifeProperties.

Section ServerConnOrder.

Import server.

Context `{Externals}.




End ServerConnOrder.

(** X9: the accept loop starts one handler for each connection accepted
    before the first [Accept] error, in order, then logs that error (at
    debug level when it is a closed-or-canceled one) and returns, whatever
    [Accept] would have returned afterwards; while no error comes it
    never returns. *)
Theorem loopConnections_until_error (IsClosedOrCanceled : Error -> bool)
    (connections : list qtls.QuicHandle) :
  (forall err (later : list (Error + qtls.QuicHandle)),
      loopConnections IsClosedOrCanceled ((inr <$> connections) ++ inl err :: later)
      = ((GoHandleConnection <$> connections)
         ++ [if IsClosedOrCanceled err then LoggerDebugClosed err
             else LoggerErrorClosed err],
         true))
  /\ loopConnections IsClosedOrCanceled (inr <$> connections)
     = (GoHandleConnection <$> connections, false).
Proof.
  induction connections as [| connection rest [IHerr IHnone]]; split; intros;
    cbn [fmap list_fmap app loopConnections]; try reflexivity.
  - rewrite (IHerr err later). reflexivity.
  - change (list_fmap _ _ inr rest) with (inr (A := Error) <$> rest).
    rewrite IHnone. reflexivity.
Qed.

(** * More properties of the client *)

Section ClientLifeProperties.

Import qtls client.

Context `{Externals}.

Implicit Types (c : Client) (net : Network) (k : clientQUICConnection).

(** The connection [offer] returns is active and stored. *)
Lemma offer_usable c net k tr c1 :
  offer c net = (Ok k, tr, c1) -> usable (conn c1) = Some k.
Proof.
  unfold offer. destruct (usable (conn c)) as [k0 |] eqn:Hu.
  - intros [= <- _ <-]. exact Hu.
  - unfold offerNew.
    destruct (dial net) as [err | udpConn]; [discriminate |].
    destruct (trip net) as [err | q err | q response]; cbn [RoundTrip Dial fst];
      try discriminate.
    destruct (negb _); [discriminate |].
    intros [= <- _ <-]. reflexivity.
Qed.

(** X10: [offerNew] cleans up after itself.  When it fails, the client
    is left as it was, and what was opened is closed, in this order: the
    QUIC connection, with error code 0, if the QUIC dial had succeeded,
    then the UDP socket if it had been dialed; when it succeeds, nothing
    is closed, and the connection it returns is active, is the one the
    client stores, and holds the dialed socket and QUIC connection.  It
    never ends in a nil dereference. *)
Theorem offerNew_cleanup c net :
  match fst (fst (offerNew c net)) with
  | Ok k =>
      conn (snd (offerNew c net)) = Some k
      /\ active k = true
      /\ filter (fun e => isClose e = true) (snd (fst (offerNew c net))) = []
      /\ dial net = inr (rawConn k)
      /\ dialed (trip net) = Some (quicConn k)
  | Err _ =>
      snd (offerNew c net) = c
      /\ (forall err, dial net = inl err ->
          snd (fst (offerNew c net)) = [DialContext])
      /\ (forall udpConn, dial net = inr udpConn ->
          filter (fun e => isClose e = true) (snd (fst (offerNew c net)))
          = closeIfDialed (dialed (trip net)) ++ [UdpClose udpConn])
  | Panic => False
  end.
Proof.
  unfold offerNew.
  destruct (dial net) as [err | udpConn].
  { cbn. split; [reflexivity |]. split; [reflexivity |]. intros u [=]. }
  destruct (trip net) as [err | q err | q response]; cbn [RoundTrip Dial fst snd dialed].
  - split; [reflexivity |]. split; [intros e [=] |]. intros u [= <-]. reflexivity.
  - split; [reflexivity |]. split; [intros e [=] |]. intros u [= <-]. reflexivity.
  - destruct (negb (StatusCode response =? protocol.StatusAuthOK)).
    + cbn [fst snd].
      split; [reflexivity |]. split; [intros e [=] |]. intros u [= <-]. reflexivity.
    + cbn [fst snd set_conn conn rawConn quicConn].
      split; [reflexivity |]. split; [reflexivity |]. split; [| split; reflexivity].
      destruct (negb _ && _), (negb (udpDisabled c)); reflexivity.
Qed.

(** X11: whatever the network answers, a Brutal sender the client
    installs has a rate above 0 and at most the client's [sendBPS], and at
    most the rx of the auth response when that is not 0; it is installed
    on the connection the response came over, and only for a response
    without [RxAuto]. *)
Theorem client_brutal_rate c net q (bps : N) (debug : bool) :
  (q, NewBrutalSender bps debug) ∈ installs (snd (fst (offerNew c net))) ->
  (0 < bps)%N
  /\ (bps <= sendBPS c)%N
  /\ exists response,
       trip net = Responded q response
       /\ protocol.RxAuto (AuthResponseFromHeader (RespHeader response)) = false
       /\ (protocol.RespRx (AuthResponseFromHeader (RespHeader response)) <> 0%N ->
           (bps <= protocol.RespRx (AuthResponseFromHeader (RespHeader response)))%N).
Proof.
  destruct (dial net) as [err | udpConn] eqn:Hdial.
  { unfold offerNew. rewrite Hdial. cbn. intros Hin. not_listed Hin. }
  destruct (trip net) as [err | q0 err | q0 response] eqn:Htrip.
  - unfold offerNew. rewrite Hdial, Htrip. cbn. intros Hin. not_listed Hin.
  - unfold offerNew. rewrite Hdial, Htrip. cbn. intros Hin. not_listed Hin.
  - destruct (Z.eq_dec (StatusCode response) protocol.StatusAuthOK) as [Hok | Hbad].
    + rewrite (offerNew_authenticated c net udpConn q0 response Hdial Htrip Hok).
      cbn [fst snd]. rewrite !client_installs_app.
      set (authResponse := AuthResponseFromHeader (RespHeader response)).
      destruct (protocol.RxAuto authResponse) eqn:Hauto; cbn [negb andb].
      { destruct (negb (udpDisabled c)); cbn; intros Hin; not_listed Hin. }
      destruct (N.ltb_spec 0 (actualTx c authResponse)) as [Hpos | Hzero].
      * intros Hin.
        assert (Heq : (q, NewBrutalSender bps debug)
                      = (q0, NewBrutalSender (actualTx c authResponse) (brutalDebug c))).
        { destruct (negb (udpDisabled c)); cbn in Hin;
            apply list_elem_of_singleton in Hin; exact Hin. }
        injection Heq as -> -> _.
        split; [exact Hpos |].
        pose proof (actualTx_min c authResponse) as Hmin.
        destruct (N.eqb_spec (protocol.RespRx authResponse) 0) as [Hz | Hnz].
        -- split; [lia |]. exists response. repeat split; [exact Hauto |].
           intros Hne. contradiction.
        -- split; [rewrite Hmin; apply N.le_min_r |].
           exists response. repeat split; [exact Hauto |].
           intros _. rewrite Hmin. apply N.le_min_l.
      * destruct (negb (udpDisabled c)); cbn; intros Hin; not_listed Hin.
    + rewrite (offerNew_rejected c net udpConn q0 response Hdial Htrip Hbad).
      cbn. intros Hin. not_listed Hin.
Qed.

(** X12: after [offer] has returned a connection, a further [offer]
    returns the same connection without a single call, whatever the
    network would answer: no second dial while the connection is
    active. *)
Theorem offer_single_flight c net net' k tr c1 :
  offer c net = (Ok k, tr, c1) ->
  offer c1 net' = (Ok k, [], c1).
Proof.
  intros Hoffer. apply offer_reuses. exact (offer_usable c net k tr c1 Hoffer).
Qed.

(** X13: [Client.CloseWithError] on a client whose connection is not
    closed yet closes the QUIC connection once, with error code 0, and
    keeps the error; a second call changes nothing and makes no call; and
    the next [offer] dials anew. *)
Theorem CloseWithError_then_redial c k (err err2 : Error) :
  conn c = Some k ->
  closeOnce k = false ->
  let c' := fst (Client_CloseWithError c err) in
  snd (Client_CloseWithError c err) = [QuicCloseWithError (quicConn k) 0 ""]
  /\ (connErr <$> conn c') = Some (Some err)
  /\ Client_CloseWithError c' err2 = (c', [])
  /\ (forall net, offer c' net = offerNew c' net).
Proof.
  intros Hconn Honce c'.
  assert (Hclose : Client_CloseWithError c err
                   = (set_conn c (Some (fst (closeWithError k err))),
                      [QuicCloseWithError (quicConn k) 0 ""])).
  { unfold Client_CloseWithError. rewrite Hconn.
    unfold closeWithError. rewrite Honce. reflexivity. }
  subst c'. rewrite Hclose. cbn [fst snd].
  unfold closeWithError. rewrite Honce. cbn [fst].
  split; [reflexivity |]. split; [reflexivity |]. split.
  - reflexivity.
  - intros net. apply offer_redials. cbn [set_conn conn usable].
    unfold active. cbn. destruct (quicContextDone k); reflexivity.
Qed.

(** [ListenPacket] on a usable connection that has UDP. *)
Lemma ListenPacket_usable c net k :
  udpDisabled c = false ->
  usable (conn c) = Some k ->
  conn_udpDisabled k = false ->
  ListenPacket c net
  = (Ok {| pc_quicConn := quicConn k; sessionID := udpSessionID k |}, [],
     set_conn c
       (Some (registerSession k
                {| pc_quicConn := quicConn k; sessionID := udpSessionID k |}))).
Proof.
  intros Hon Hu Hk. unfold ListenPacket.
  rewrite Hon, (offer_reuses c net k Hu), Hk. reflexivity.
Qed.

Lemma usable_register k pc :
  usable (Some k) = Some k ->
  usable (Some (registerSession k pc)) = Some (registerSession k pc).
Proof.
  unfold usable, active, registerSession. cbn.
  destruct (quicContextDone k); [discriminate |].
  destruct (connDone k); [discriminate | reflexivity].
Qed.

Lemma uint32_succ (x i : N) :
  uint32 (uint32 (x + 1) + i) = uint32 (x + (1 + i)).
Proof.
  unfold uint32. rewrite N.Div0.add_mod_idemp_l. f_equal. lia.
Qed.

(** Two offsets below 2^32 that give the same session id are equal. *)
Lemma uint32_offset_inj (x : N) (i j : nat) :
  (N.of_nat i < 2 ^ 32)%N ->
  (N.of_nat j < 2 ^ 32)%N ->
  uint32 (x + N.of_nat i) = uint32 (x + N.of_nat j) ->
  i = j.
Proof.
  unfold uint32. change (2 ^ 32)%N with 4294967296%N. intros Hi Hj Hmod.
  pose proof (N.div_mod (x + N.of_nat i) 4294967296 ltac:(discriminate)) as Hdi.
  pose proof (N.div_mod (x + N.of_nat j) 4294967296 ltac:(discriminate)) as Hdj.
  rewrite Hmod in Hdi.
  set (qi := ((x + N.of_nat i) / 4294967296)%N) in *.
  set (qj := ((x + N.of_nat j) / 4294967296)%N) in *.
  set (rem := ((x + N.of_nat j) mod 4294967296)%N) in *.
  lia.
Qed.

Lemma listenMany_ids (n : nat) : forall c net k,
  udpDisabled c = false ->
  usable (conn c) = Some k ->
  conn_udpDisabled k = false ->
  (udpSessionID k < 2 ^ 32)%N ->
  fst (listenMany n c net)
  = (fun i : nat =>
       (Ok {| pc_quicConn := quicConn k;
              sessionID := uint32 (udpSessionID k + N.of_nat i) |},
        @nil Event)) <$> seq 0 n.
Proof.
  induction n as [| n IH]; intros c net k Hon Hu Hk Hid; cbn [listenMany].
  - reflexivity.
  - rewrite (ListenPacket_usable c net k Hon Hu Hk).
    set (pc := {| pc_quicConn := quicConn k; sessionID := udpSessionID k |}).
    assert (Hu1 : usable (conn (set_conn c (Some (registerSession k pc))))
                  = Some (registerSession k pc)).
    { cbn [set_conn conn]. apply usable_register.
      apply usable_Some in Hu as [Hc Ha]. unfold usable. rewrite Ha. reflexivity. }
    assert (Hid1 : (udpSessionID (registerSession k pc) < 2 ^ 32)%N).
    { cbn [registerSession udpSessionID]. unfold uint32.
      apply N.mod_upper_bound. discriminate. }
    specialize (IH (set_conn c (Some (registerSession k pc))) net
                  (registerSession k pc) Hon Hu1 Hk Hid1).
    destruct (listenMany n (set_conn c (Some (registerSession k pc))) net)
      as [rs c2].
    cbn [fst] in *. rewrite IH.
    cbn [seq fmap list_fmap]. f_equal.
    + cbn [N.of_nat]. rewrite N.add_0_r. unfold uint32.
      rewrite N.mod_small by exact Hid. reflexivity.
    + rewrite <- fmap_S_seq.
      change (list_fmap nat ?B ?f (S <$> ?l)) with (f <$> (S <$> l)).
      rewrite <- list_fmap_compose.
      apply list_fmap_ext. intros i j _.
      cbn [compose registerSession quicConn udpSessionID].
      rewrite uint32_succ, Nat2N.inj_succ.
      replace (1 + N.of_nat j)%N with (N.succ (N.of_nat j)) by lia.
      reflexivity.
Qed.

(** X14: on a connection that is active and has UDP, [n] successive
    [ListenPacket] calls make no call on the network and return the
    session ids counter, counter + 1, ... (as uint32); up to 2^32 of them
    are pairwise distinct. *)
Theorem ListenPacket_distinct_ids (n : nat) c net k :
  udpDisabled c = false ->
  usable (conn c) = Some k ->
  conn_udpDisabled k = false ->
  (udpSessionID k < 2 ^ 32)%N ->
  fst (listenMany n c net)
  = (fun i : nat =>
       (Ok {| pc_quicConn := quicConn k;
              sessionID := uint32 (udpSessionID k + N.of_nat i) |},
        @nil Event)) <$> seq 0 n
  /\ ((N.of_nat n <= 2 ^ 32)%N -> NoDup (fst (listenMany n c net))).
Proof.
  intros Hon Hu Hk Hid.
  pose proof (listenMany_ids n c net k Hon Hu Hk Hid) as Hids.
  split; [exact Hids |].
  intros Hn. rewrite Hids.
  apply NoDup_fmap_2_strong; [| apply NoDup_seq].
  intros i j Hi Hj Heq.
  apply elem_of_seq in Hi, Hj.
  injection Heq as Heq.
  apply (uint32_offset_inj (udpSessionID k)); [lia | lia | exact Heq].
Qed.

(** X15: when a packet conn is closed right after [ListenPacket]
    returned it, the session table is again what it was before, provided
    the id was free, and the counter is not taken back: the next
    [ListenPacket] returns another session id. *)
Theorem closed_session_id_not_reused c net k :
  udpDisabled c = false ->
  usable (conn c) = Some k ->
  conn_udpDisabled k = false ->
  (udpSessionID k < 2 ^ 32)%N ->
  udpConnMap k !! udpSessionID k = None ->
  exists pc c1,
    ListenPacket c net = (Ok pc, [], c1)
    /\ sessionID pc = udpSessionID k
    /\ (udpConnMap <$> conn (closePacketConn c1 pc)) = Some (udpConnMap k)
    /\ exists pc',
         fst (fst (ListenPacket (closePacketConn c1 pc) net)) = Ok pc'
         /\ sessionID pc' <> sessionID pc.
Proof.
  intros Hon Hu Hk Hid Hfree.
  set (pc := {| pc_quicConn := quicConn k; sessionID := udpSessionID k |}).
  exists pc, (set_conn c (Some (registerSession k pc))).
  split; [apply ListenPacket_usable; assumption |].
  split; [reflexivity |].
  unfold closePacketConn. cbn [set_conn conn fmap option_fmap option_map].
  split.
  - f_equal. apply removeSession_register. exact Hfree.
  - set (k2 := removeSession (registerSession k pc) (sessionID pc)).
    assert (Hu2 : usable (Some k2) = Some k2).
    { apply usable_Some in Hu as [_ Ha]. revert Ha.
      unfold usable, active, k2, removeSession, registerSession. cbn.
      destruct (quicContextDone k); [discriminate |].
      destruct (connDone k); [discriminate | reflexivity]. }
    eexists. split.
    + rewrite (ListenPacket_usable _ net k2); [reflexivity | exact Hon | exact Hu2 |].
      exact Hk.
    + cbn [sessionID k2 removeSession registerSession udpSessionID pc].
      unfold uint32. change (2 ^ 32)%N with 4294967296%N in *.
      destruct (N.eq_dec (udpSessionID k + 1)%N 4294967296%N) as [Hwrap | Hroom].
      * rewrite Hwrap, N.Div0.mod_same. lia.
      * rewrite N.mod_small by lia. lia.
Qed.



(** X17: a conn whose response is not read yet returns no payload before
    an OK response: as long as the response frame cannot be read or
    reports an error, every read returns 0 bytes after trying the
    response frame alone, the stream's own read is not called, and the
    conn is left as it was, so that the next read tries the response
    frame again. *)
Theorem no_payload_before_response (reads : list (nat * StreamAnswers)) :
  forall x : clientConn,
    responseRead x = false ->
    Forall (fun rd => forall message,
                onReadTCPResponse (snd rd) <> inr (true, message)) reads ->
    snd (runReads x reads) = x
    /\ Forall (fun res => fst (fst res) = 0 /\ snd res = [ReadTCPResponse])
         (fst (runReads x reads)).
Proof.
  induction reads as [| [len a] rest IH]; intros x Hr Hall; cbn [runReads].
  - cbn. split; [reflexivity | constructor].
  - apply Forall_cons in Hall as [Ha Hrest]. cbn [snd] in Ha.
    assert (Hread : exists e, Read x len a = ((0, e), x, [ReadTCPResponse])).
    { unfold Read. rewrite Hr.
      destruct (onReadTCPResponse a) as [err | [[|] message]].
      - eexists. reflexivity.
      - exfalso. apply (Ha message). reflexivity.
      - eexists. reflexivity. }
    destruct Hread as [e ->].
    destruct (IH x Hr Hrest) as [Hsame Hres].
    destruct (runReads x rest) as [rs x2]. cbn [fst snd] in *.
    split; [exact Hsame |]. constructor; [cbn; auto | exact Hres].
Qed.

(** X18: [DialConn] opens a stream only on the connection that [offer]
    returned, which is then active and the one the client stores: never
    on a connection whose handshake failed; and the conn it returns still
    has its request to write and its response to read. *)
Theorem DialConn_stream_on_stored c net (opened : option Error)
    (dst : Socksaddr) :
  (forall q,
      OpenStream q ∈ snd (fst (DialConn c net opened dst)) ->
      exists k,
        conn (snd (DialConn c net opened dst)) = Some k
        /\ quicConn k = q
        /\ active k = true)
  /\ (forall x,
        fst (fst (DialConn c net opened dst)) = Ok x ->
        x = newClientConn dst
        /\ NeedHandshake x = true
        /\ exists q, OpenStream q ∈ snd (fst (DialConn c net opened dst))).
Proof.
  unfold DialConn.
  pose proof (offer_usable c net) as Hstored.
  destruct (offer c net) as [[[k | err |] tr] c1].
  - specialize (Hstored k tr c1 eq_refl).
    apply usable_Some in Hstored as [Hconn Hactive].
    assert (Hopen : forall q,
               OpenStream q ∈ map OfferCall tr ++ [OpenStream (quicConn k)] ->
               quicConn k = q).
    { intros q Hin. apply elem_of_app in Hin as [Hin | Hin].
      - apply list_elem_of_In, in_map_iff in Hin as (e & He & _). discriminate.
      - apply list_elem_of_singleton in Hin. injection Hin as ->. reflexivity. }
    destruct opened as [err |]; cbn [fst snd]; split.
    + intros q Hin. exists k. auto.
    + intros x [=].
    + intros q Hin. exists k. auto.
    + intros x [= <-]. split; [reflexivity |]. split; [reflexivity |].
      exists (quicConn k). apply elem_of_app. right. apply list_elem_of_here.
  - cbn [fst snd]. split.
    + intros q Hin. apply list_elem_of_In, in_map_iff in Hin as (e & He & _).
      discriminate.
    + intros x [=].
  - cbn [fst snd]. split.
    + intros q Hin. apply list_elem_of_In, in_map_iff in Hin as (e & He & _).
      discriminate.
    + intros x [=].
Qed.

End ClientLifeProperties.

(** * More of the model at work *)

(** Three users over four passwords, one password given twice: the later
    user has it; one password for two users: the panic. *)
Lemma UpdateUsers_pairs_witness :
  (length [1; 2; 3]%nat <= length ["a"; "b"; "a"; "z"]%string)%nat
  /\ (server.userMap
        <$> server.UpdateUsers (example.svc false) [1; 2; 3]%nat
              ["a"; "b"; "a"; "z"]%string)
     = Some {[ "a"%string := 3%nat; "b"%string := 2%nat ]}
  /\ (length ["a"]%string < length [1; 2]%nat)%nat
  /\ server.UpdateUsers (example.svc false) [1; 2]%nat ["a"]%string = None.
Proof.
  assert (H34 : (length [1; 2; 3]%nat <= length ["a"; "b"; "a"; "z"]%string)%nat)
    by (cbn; lia).
  assert (H12 : (length ["a"]%string < length [1; 2]%nat)%nat) by (cbn; lia).
  split; [exact H34 |]. split; [| split; [exact H12 |]].
  - rewrite (proj1 (UpdateUsers_pairs (example.svc false) [1; 2; 3]%nat
                      ["a"; "b"; "a"; "z"]%string) H34).
    vm_compute. reflexivity.
  - exact (proj2 (UpdateUsers_pairs (example.svc false) [1; 2]%nat ["a"]%string) H12).
Defined.

(** After an update to users 1 and 2, the password of user 2. *)
Lemma UpdateUsers_then_auth_witness :
  server.authenticated (example.session false) = false
  /\ server.UpdateUsers (server.service (example.session false)) [1; 2]%nat
       ["a"; "b"]%string
     = Some (server.set_userMap (example.svc false)
               {[ "a"%string := 1%nat; "b"%string := 2%nat ]})
  /\ server.isAuthURL (example.authPOST "b" 0) = true
  /\ exists i,
       ["a"; "b"]%string !! i = Some "b"%string
       /\ [1; 2]%nat !! i
          = Some (server.authUser
                    (fst (server.ServeHTTP
                            (server.withService (example.session false)
                               (server.set_userMap (example.svc false)
                                  {[ "a"%string := 1%nat; "b"%string := 2%nat ]}))
                            (example.authPOST "b" 0)))).
Proof.
  assert (Hupd : server.UpdateUsers (server.service (example.session false))
                   [1; 2]%nat ["a"; "b"]%string
                 = Some (server.set_userMap (example.svc false)
                           {[ "a"%string := 1%nat; "b"%string := 2%nat ]}))
    by (vm_compute; reflexivity).
  split; [reflexivity |]. split; [exact Hupd |]. split; [reflexivity |].
  apply (proj2 (UpdateUsers_then_auth (example.session false) [1; 2]%nat
                  ["a"; "b"]%string _ (example.authPOST "b" 0)
                  eq_refl Hupd eq_refl)).
  vm_compute. reflexivity.
Defined.

(** The user of scenario 1 after all users were removed. *)
Lemma authenticated_user_kept_witness :
  server.authenticated example.authedSession = true
  /\ server.authenticated (fst (runActivities example.authedSession demo.revoked)) = true
  /\ server.authUser (fst (runActivities example.authedSession demo.revoked)) = 7%nat.
Proof.
  split; [reflexivity |].
  exact (authenticated_user_kept demo.revoked example.authedSession eq_refl).
Defined.

(** A visitor without a valid password sees the masquerade only. *)
Lemma unauthenticated_only_masquerades_witness :
  server.authenticated
    (fst (handleConnection (H:=example.externals) (example.svc false) "198.51.100.7:4433"%string demo.visitor))
  = false
  /\ snd (handleConnection (H:=example.externals) (example.svc false) "198.51.100.7:4433"%string demo.visitor)
     = [server.MasqueradeServeHTTP example.getIndex;
        server.MasqueradeServeHTTP (example.authPOST "q" 1);
        @server.QuicCloseWithError example.externals 0 ""].
Proof.
  split; [reflexivity |].
  exact (unauthenticated_only_masquerades (H:=example.externals) (example.svc false)
           "198.51.100.7:4433"%string demo.visitor eq_refl).
Defined.

(** The stream of scenario 4 is taken after the auth response. *)
Lemma hijack_after_auth_witness :
  snd (handleConnection (H:=example.externals) (example.svc false)
         "198.51.100.7:4433"%string demo.user)
  = demo.beforeStream
    ++ server.Go server.StreamHandler :: [server.QuicCloseWithError 0 ""]
  /\ @server.WriteHeader example.externals 233 ∈ demo.beforeStream.
Proof.
  split; [reflexivity |].
  exact (hijack_after_auth (H:=example.externals) (example.svc false)
           "198.51.100.7:4433"%string demo.user demo.beforeStream
           [server.QuicCloseWithError 0 ""] eq_refl).
Defined.

(** Scenario 1 on the server: 50 Mbps is within both caps. *)
Lemma server_brutal_rate_witness :
  NewBrutalSender 50000000 false
    ∈ server.installs
        (snd (server.ServeHTTP (example.session false) (example.authPOST "p" 50000000)))
  /\ (0 < 50000000)%N
  /\ (50000000 <= 50000000)%N
  /\ (50000000 <= 80000000)%N.
Proof.
  assert (Hin : NewBrutalSender 50000000 false
                  ∈ server.installs
                      (snd (server.ServeHTTP (example.session false)
                              (example.authPOST "p" 50000000))))
    by (vm_compute; apply list_elem_of_here).
  split; [exact Hin |].
  destruct (server_brutal_rate (example.session false) (example.authPOST "p" 50000000)
              50000000 false Hin) as (Hpos & Hrx & Hcap & _).
  split; [exact Hpos |]. split; [exact Hrx |]. apply Hcap. reflexivity.
Defined.

(** An idle timeout, then a second close. *)
Lemma closeWithError_latches_witness :
  server.connDone example.authedSession = false
  /\ snd (closeAll example.authedSession [demo.idle; ExternalError "again"])
     = [@server.QuicCloseWithError example.externals 0 ""]
  /\ server.connErr (fst (closeAll example.authedSession [demo.idle; ExternalError "again"]))
     = Some demo.idle.
Proof.
  split; [reflexivity |].
  destruct (closeWithError_latches example.authedSession demo.idle
              [ExternalError "again"] eq_refl) as (Htrace & Herr & _).
  split; [exact Htrace | exact Herr].
Defined.


(** Scenario 3 on the client, and a server that cannot be reached. *)
Lemma offerNew_cleanup_witness :
  client.dial (example.answering 404 example.noResponse) = inr example.u1
  /\ filter (fun e => isClose e = true)
       (snd (fst (client.offerNew (example.cli false)
                    (example.answering 404 example.noResponse))))
     = [client.QuicCloseWithError example.q1 0 ""; client.UdpClose example.u1]
  /\ client.dial demo.unreachable = inl (ExternalError "unreachable")
  /\ snd (fst (client.offerNew (example.cli false) demo.unreachable))
     = [client.DialContext].
Proof.
  pose proof (offerNew_cleanup (example.cli false)
                (example.answering 404 example.noResponse)) as Hrejected.
  pose proof (offerNew_cleanup (example.cli false) demo.unreachable) as Hunreachable.
  split; [reflexivity |]. split; [| split; [reflexivity |]].
  - exact (proj2 (proj2 Hrejected) example.u1 eq_refl).
  - exact (proj1 (proj2 Hunreachable) (ExternalError "unreachable") eq_refl).
Defined.

(** Scenario 1 on the client: 50 Mbps is within the client's 100 Mbps. *)
Lemma client_brutal_rate_witness :
  (example.q1, NewBrutalSender 50000000 false)
    ∈ client.installs (snd (fst (client.offerNew (example.cli false) demo.network)))
  /\ (0 < 50000000)%N
  /\ (50000000 <= 100000000)%N.
Proof.
  assert (Hin : (example.q1, NewBrutalSender 50000000 false)
                  ∈ client.installs
                      (snd (fst (client.offerNew (example.cli false) demo.network))))
    by (vm_compute; apply list_elem_of_here).
  split; [exact Hin |].
  destruct (client_brutal_rate (example.cli false) demo.network example.q1
              50000000 false Hin) as (Hpos & Hcap & _).
  split; [exact Hpos | exact Hcap].
Defined.

(** After scenario 1 the connection is reused, also when the server can
    no longer be reached. *)
Lemma offer_single_flight_witness :
  client.offer (example.cli false) demo.network
  = (client.Ok demo.conn0, demo.handshake0, demo.client0)
  /\ client.offer demo.client0 demo.unreachable = (client.Ok demo.conn0, [], demo.client0).
Proof.
  assert (Hoffer : client.offer (example.cli false) demo.network
                   = (client.Ok demo.conn0, demo.handshake0, demo.client0))
    by reflexivity.
  split; [exact Hoffer |].
  exact (offer_single_flight (example.cli false) demo.network demo.unreachable
           demo.conn0 demo.handshake0 demo.client0 Hoffer).
Defined.

(** Closing the client of scenario 1, twice. *)
Lemma CloseWithError_then_redial_witness :
  client.conn demo.client0 = Some demo.conn0
  /\ client.closeOnce demo.conn0 = false
  /\ snd (Client_CloseWithError demo.client0 demo.idle)
     = [client.QuicCloseWithError example.q1 0 ""]
  /\ snd (Client_CloseWithError (fst (Client_CloseWithError demo.client0 demo.idle))
            (ExternalError "again"))
     = [].
Proof.
  split; [reflexivity |]. split; [reflexivity |].
  destruct (CloseWithError_then_redial (H:=example.externals) demo.client0 demo.conn0 demo.idle
              (ExternalError "again") eq_refl eq_refl) as (Hfirst & _ & Hsecond & _).
  split; [exact Hfirst |]. rewrite Hsecond. reflexivity.
Defined.

(** Three sessions on the connection of scenario 1. *)
Lemma ListenPacket_distinct_ids_witness :
  client.udpDisabled demo.client0 = false
  /\ client.usable (client.conn demo.client0) = Some demo.conn0
  /\ client.conn_udpDisabled demo.conn0 = false
  /\ (client.udpSessionID demo.conn0 < 2 ^ 32)%N
  /\ (N.of_nat 3 <= 2 ^ 32)%N
  /\ NoDup (fst (@listenMany example.externals 3 demo.client0 demo.network)).
Proof.
  assert (Hid : (client.udpSessionID demo.conn0 < 2 ^ 32)%N) by reflexivity.
  assert (Hn : (N.of_nat 3 <= 2 ^ 32)%N) by (vm_compute; discriminate).
  split; [reflexivity |]. split; [reflexivity |]. split; [reflexivity |].
  split; [exact Hid |]. split; [exact Hn |].
  exact (proj2 (ListenPacket_distinct_ids 3 demo.client0 demo.network demo.conn0
                  eq_refl eq_refl eq_refl Hid) Hn).
Defined.

(** A session opened and closed on the connection of scenario 1. *)
Lemma closed_session_id_not_reused_witness :
  client.udpDisabled demo.client0 = false
  /\ client.usable (client.conn demo.client0) = Some demo.conn0
  /\ client.conn_udpDisabled demo.conn0 = false
  /\ (client.udpSessionID demo.conn0 < 2 ^ 32)%N
  /\ client.udpConnMap demo.conn0 !! client.udpSessionID demo.conn0 = None
  /\ exists pc c1,
       client.ListenPacket demo.client0 demo.network = (client.Ok pc, [], c1)
       /\ client.sessionID pc = client.udpSessionID demo.conn0
       /\ (client.udpConnMap <$> client.conn (closePacketConn c1 pc))
          = Some (client.udpConnMap demo.conn0)
       /\ exists pc',
            fst (fst (client.ListenPacket (closePacketConn c1 pc) demo.network))
            = client.Ok pc'
            /\ client.sessionID pc' <> client.sessionID pc.
Proof.
  assert (Hid : (client.udpSessionID demo.conn0 < 2 ^ 32)%N) by reflexivity.
  split; [reflexivity |]. split; [reflexivity |]. split; [reflexivity |].
  split; [exact Hid |]. split; [reflexivity |].
  exact (closed_session_id_not_reused demo.client0 demo.network demo.conn0
           eq_refl eq_refl eq_refl Hid eq_refl).
Defined.


(** Two reads that meet a refusal from the server. *)
Lemma no_payload_before_response_witness :
  client.responseRead example.destinationConn = false
  /\ Forall (fun rd => forall message,
                 onReadTCPResponse (snd rd) <> inr (true, message))
       [(5%nat, example.refusedStream); (5%nat, demo.brokenStream)]
  /\ snd (client.runReads example.destinationConn
            [(5%nat, example.refusedStream); (5%nat, demo.brokenStream)])
     = example.destinationConn.
Proof.
  assert (Hall : Forall (fun rd => forall message,
                             onReadTCPResponse (snd rd) <> inr (true, message))
                   [(5%nat, example.refusedStream); (5%nat, demo.brokenStream)]).
  { repeat constructor; intros message; discriminate. }
  split; [reflexivity |]. split; [exact Hall |].
  exact (proj1 (no_payload_before_response
                  [(5%nat, example.refusedStream); (5%nat, demo.brokenStream)]
                  example.destinationConn eq_refl Hall)).
Defined.

(** Scenario 4: the stream is opened on the connection of scenario 1. *)
Lemma DialConn_stream_on_stored_witness :
  OpenStream example.q1
    ∈ snd (fst (DialConn demo.client0 demo.unreachable None "example.com:80"%string))
  /\ exists k,
       client.conn (snd (DialConn demo.client0 demo.unreachable None
                           "example.com:80"%string))
       = Some k
       /\ client.quicConn k = example.q1
       /\ client.active k = true.
Proof.
  assert (Hin : OpenStream example.q1
                  ∈ snd (fst (DialConn demo.client0 demo.unreachable None
                                "example.com:80"%string)))
    by (vm_compute; apply list_elem_of_here).
  split; [exact Hin |].
  exact (proj1 (DialConn_stream_on_stored demo.client0 demo.unreachable None
                  "example.com:80"%string) example.q1 Hin).
Defined.


(** * The service as [NewService] builds it *)

Section ServiceConstruction.

Import server.

Context `{Externals} {U : Type} `{Inhabited U}.

Implicit Types (s : serverSession U) (r : Request) (svc : Service U).

(** The only named controller [ServeHTTP] asks for is ["bbr"], with the
    window of the session's service. *)
Lemma ServeHTTP_named_controller s r (name : string) (w : Z) :
  CallSetCongestionController name w ∈ snd (ServeHTTP s r) ->
  name = "bbr"%string /\ w = cwnd (service s).
Proof.
  destruct (isAuthURL r) eqn:Hurl;
    [| rewrite (ServeHTTP_other_url s r Hurl); cbn; intros Hin; not_listed Hin].
  destruct (authenticated s) eqn:Hauth;
    [rewrite (ServeHTTP_replay s r Hauth Hurl); cbn; intros Hin; not_listed Hin |].
  destruct (userMap (service s) !! protocol.Auth (AuthRequestFromHeader (ReqHeader r)))
    as [user |] eqn:Huser;
    [| rewrite (ServeHTTP_unknown s r Hauth Hurl Huser); cbn; intros Hin;
       not_listed Hin].
  rewrite (ServeHTTP_accept s r user Hauth Hurl Huser). cbn [snd].
  destruct (negb _ && _), (ctx_Done _), (negb (udpDisabled _)); cbn; intros Hin;
    try (not_listed Hin);
    (apply elem_of_cons in Hin as [Hin | Hin];
     [injection Hin as -> ->; auto | not_listed Hin]).
Qed.

(** X19: on a service built by [NewService] and given its users by
    [UpdateUsers], the initial window a session asks for with BBR is 0,
    whatever [CWND] the options carry: the option does not reach the
    server's sessions. *)
Theorem NewService_window (options : ServiceOptions) (userList : list U)
    (passwordList : list string) svc s r (name : string) (w : Z) :
  UpdateUsers (NewService options) userList passwordList = Some svc ->
  service s = svc ->
  CallSetCongestionController name w ∈ snd (ServeHTTP s r) ->
  name = "bbr"%string /\ w = 0.
Proof.
  intros Hupd Hsvc Hin.
  destruct (ServeHTTP_named_controller s r name w Hin) as [Hname Hw].
  split; [exact Hname |]. rewrite Hw, Hsvc.
  unfold UpdateUsers in Hupd.
  destruct (UpdateUsers_loop 0 userList passwordList ∅); [| discriminate].
  injection Hupd as <-. reflexivity.
Qed.

Lemma runActivities_no_users (acts : list Activity) : forall s,
  authenticated s = false ->
  userMap (service s) = ∅ ->
  Forall (fun a => forall userList passwordList,
              a <> UsersUpdate userList passwordList) acts ->
  authenticated (fst (runActivities s acts)) = false.
Proof.
  induction acts as [| a rest IH]; intros s Hauth Hmap Hall; cbn [runActivities].
  - exact Hauth.
  - apply Forall_cons in Hall as [Ha Hrest].
    assert (Hstep : activityStep s a = (s, snd (activityStep s a))).
    { destruct a as [r | frameType err | userList passwordList]; cbn [activityStep snd].
      - unfold ServeHTTP. rewrite Hauth, Hmap, lookup_empty.
        destruct (isAuthURL r); reflexivity.
      - reflexivity.
      - exfalso. apply (Ha userList passwordList). reflexivity. }
    rewrite Hstep. specialize (IH s Hauth Hmap Hrest).
    destruct (runActivities s rest) as [s2 tr2]. exact IH.
Qed.

(** X20: a service built by [NewService] has no user: until
    [UpdateUsers] is called, no connection becomes authenticated,
    whatever requests and streams arrive. *)
Theorem NewService_accepts_nobody (options : ServiceOptions)
    (remote : Socksaddr) (acts : list Activity) :
  Forall (fun a => forall userList passwordList,
              a <> UsersUpdate userList passwordList) acts ->
  authenticated (fst (handleConnection (U:=U) (NewService options) remote acts))
  = false.
Proof.
  intros Hall. unfold handleConnection.
  pose proof (runActivities_no_users acts (newSession (NewService options) remote)
                eq_refl eq_refl Hall) as Hrun.
  destruct (runActivities (newSession (NewService options) remote) acts) as [s tr].
  exact Hrun.
Qed.

End ServiceConstruction.

(** Options with window 64: the session asks for window 0. *)
Lemma NewService_window_witness :
  server.UpdateUsers (server.NewService demo.options) [7%nat] ["p"%string]
  = Some demo.built
  /\ server.service
       (server.newSession (H:=example.externals) demo.built "198.51.100.7:4433"%string)
     = demo.built
  /\ server.CallSetCongestionController "bbr" 0
       ∈ snd (server.ServeHTTP
                (server.newSession (H:=example.externals) demo.built
                   "198.51.100.7:4433"%string)
                (example.authPOST "p" 50000000))
  /\ server.CWND demo.options = 64
  /\ ("bbr"%string = "bbr"%string /\ 0 = 0).
Proof.
  assert (Hupd : server.UpdateUsers (server.NewService demo.options) [7%nat]
                   ["p"%string] = Some demo.built)
    by (vm_compute; reflexivity).
  assert (Hin : server.CallSetCongestionController "bbr" 0
                  ∈ snd (server.ServeHTTP
                           (server.newSession (H:=example.externals) demo.built
                              "198.51.100.7:4433"%string)
                           (example.authPOST "p" 50000000)))
    by (vm_compute; apply list_elem_of_here).
  split; [exact Hupd |]. split; [reflexivity |]. split; [exact Hin |].
  split; [reflexivity |].
  exact (NewService_window demo.options [7%nat] ["p"%string] demo.built
           (server.newSession (H:=example.externals) demo.built
              "198.51.100.7:4433"%string)
           (example.authPOST "p" 50000000) "bbr" 0 Hupd eq_refl Hin).
Defined.

(** The password of scenario 1 on a service that was given no users. *)
Lemma NewService_accepts_nobody_witness :
  Forall (fun a => forall userList passwordList,
              a <> @UsersUpdate example.externals nat userList passwordList)
    demo.knocking
  /\ server.authenticated
       (fst (handleConnection (H:=example.externals) (U:=nat)
               (server.NewService demo.options) "198.51.100.7:4433"%string
               demo.knocking))
     = false.
Proof.
  assert (Hall : Forall (fun a => forall userList passwordList,
                             a <> @UsersUpdate example.externals nat userList
                                    passwordList)
                   demo.knocking).
  { repeat constructor; intros userList passwordList; discriminate. }
  split; [exact Hall |].
  exact (NewService_accepts_nobody (H:=example.externals) demo.options
           "198.51.100.7:4433"%string demo.knocking Hall).
Defined.
